(** * safe-llm: the session store, the command router and the ghost-text
      suggestion engine

    A shallow embedding of [session-manager.ts] (class [SessionManager]) and
    of the interactive loop of the CLI entry point ([main], [runChatSession],
    the patched [rl._refreshLine]), with the properties the specification
    states about them.

    Modelling conventions.
    - The session directory [.safellm] is a finite map from file names to
      file contents; names are compared byte by byte.
      [path.join(SESSION_DIR, name)] is the key [name], which is exact for
      a name with no path separator in it ([is_plain_name]).  Reading an
      absent file throws, writing always succeeds, and renaming succeeds
      whenever the source exists; a file name too long for the file system
      ([fits_file_name]) is outside this.
    - In the store, a file is either text on which [JSON.parse] throws, or
      the text [JSON.stringify(session, null, 2)] of a [Session]: the code
      assigns the result of [JSON.parse] to a variable of type [Session],
      and the store follows that declared type.  What the listing does with
      JSON values of any other shape is told apart, in [listSessionsRaw].
    - JavaScript strings are Rocq strings (bytes); [\s] and [trim] see the
      ASCII white space characters, which is exact on strings of ASCII
      characters ([is_ascii]).
    - The clock, the date parser, the generation collaborator, the markdown
      renderer and the connectivity probe are parameters of the
      development.  [chatTurn] takes the generation collaborator for a
      function of the transcript; [chatTurnTools] lets its tool calls act
      on the session directory.
    - The line handler runs to its end before the next line is handled: the
      user types at the prompt.
    - The suggestion engine acts when readline calls [_refreshLine]
      ([keystroke]); readline also changes the line and the cursor without
      calling it ([silentEdit]). *)

From Stdlib Require Import ZArith Lia Ascii String List Bool Permutation Sorted.
From stdpp Require Import gmap strings list fin_maps.

Local Open Scope string_scope.
Local Open Scope list_scope.
#[local] Arguments String.append !_ _ / : simpl nomatch.

(** ** JavaScript string primitives *)

Module JsString.

(** White space as [\s] and [String.prototype.trim] see it (ASCII part):
    TAB, LF, VT, FF, CR and SPACE. *)
Definition is_space (c : ascii) : bool :=
  let n := nat_of_ascii c in
  ((9 <=? n)%nat && (n <=? 13)%nat) || (n =? 32)%nat.

Fixpoint trimStart (s : string) : string :=
  match s with
  | EmptyString => EmptyString
  | String c s' => if is_space c then trimStart s' else s
  end.

Fixpoint trimEnd (s : string) : string :=
  match s with
  | EmptyString => EmptyString
  | String c s' =>
      match trimEnd s' with
      | EmptyString => if is_space c then EmptyString else String c EmptyString
      | t => String c t
      end
  end.

Definition trim (s : string) : string := trimEnd (trimStart s).

(** [s.startsWith(p)] *)
Fixpoint startsWith (s p : string) {struct p} : bool :=
  match p, s with
  | EmptyString, _ => true
  | String _ _, EmptyString => false
  | String b p', String a s' => Ascii.eqb a b && startsWith s' p'
  end.

(** [s.endsWith(p)]: some suffix of [s] is [p]. *)
Fixpoint endsWith (s p : string) : bool :=
  String.eqb s p ||
  match s with
  | EmptyString => false
  | String _ s' => endsWith s' p
  end.

(** [s.substring(n)] *)
Fixpoint substring_from (n : nat) (s : string) : string :=
  match n, s with
  | O, _ => s
  | S _, EmptyString => EmptyString
  | S n', String _ s' => substring_from n' s'
  end.

(** [!s] for a string: only the empty string is falsy. *)
Definition is_empty (s : string) : bool :=
  match s with EmptyString => true | _ => false end.

Fixpoint filter_chars (keep : ascii -> bool) (s : string) : string :=
  match s with
  | EmptyString => EmptyString
  | String c s' =>
      if keep c then String c (filter_chars keep s') else filter_chars keep s'
  end.

Fixpoint map_chars (f : ascii -> ascii) (s : string) : string :=
  match s with
  | EmptyString => EmptyString
  | String c s' => String (f c) (map_chars f s')
  end.

(** [s.replace(/\s+/g, r)]: every maximal run of white space becomes one
    [r]; [in_run] tells that the previous character was white space. *)
Fixpoint replace_space_runs (r : ascii) (in_run : bool) (s : string) : string :=
  match s with
  | EmptyString => EmptyString
  | String c s' =>
      if is_space c
      then if in_run then replace_space_runs r true s'
           else String r (replace_space_runs r true s')
      else String c (replace_space_runs r false s')
  end.

End JsString.

Import JsString.

(** ** Data model ([session-manager.ts]) *)

Inductive Role := user | assistant.

Record Message := { role : Role; content : string }.

Module Session.
(** [interface Session] *)
Record t := mk {
  id : string;
  filename : string;
  createdAt : string;
  messages : list Message
}.
Definition with_filename (s : t) (f : string) : t :=
  mk (id s) f (createdAt s) (messages s).
Definition with_id (s : t) (i : string) : t :=
  mk i (filename s) (createdAt s) (messages s).
Definition with_messages (s : t) (m : list Message) : t :=
  mk (id s) (filename s) (createdAt s) m.
End Session.

(** What a file of the session directory holds. *)
Inductive FileData :=
| Unparseable (raw : string)   (* [JSON.parse] throws *)
| Json (s : Session.t).        (* [JSON.stringify(s, null, 2)] *)

(** [Array.prototype.sort(cmp)].  ECMAScript specifies a stable sort: an
    element goes before the first element it does not compare greater than,
    and elements that compare equal keep their order. *)
Section JsSort.
Context {A : Type} (cmp : A -> A -> Z).

Fixpoint insert_sorted (x : A) (l : list A) : list A :=
  match l with
  | [] => [x]
  | y :: l' => if (cmp x y <=? 0)%Z then x :: l else y :: insert_sorted x l'
  end.

Definition js_sort (l : list A) : list A := foldr insert_sorted [] l.

(** The comparator does not ask for [b] before [a]. *)
Definition in_order (a b : A) : Prop := (cmp a b <= 0)%Z.
End JsSort.

(** ** The session store ([class SessionManager]) *)

Record Store := mkStore {
  files : gmap string FileData;        (* the directory [.safellm] *)
  currentSessionId : option string;    (* [string | null] *)
  ticks : nat                          (* clock readings taken so far *)
}.

Definition json_suffix : string := ".json".

(** [fs.readdir(SESSION_DIR)] *)
Definition readdir (fs : gmap string FileData) : list string :=
  (map_to_list fs).*1.

(** [JSON.parse(await fs.readFile(path.join(SESSION_DIR, file), 'utf-8'))];
    [None] when either call throws. *)
Definition readSessionFile (fs : gmap string FileData) (file : string)
  : option Session.t :=
  match fs !! file with
  | Some (Json s) => Some s
  | Some (Unparseable _) => None
  | None => None
  end.

(** [fs.rename(oldPath, newPath)]; the source exists at every call site. *)
Definition fs_rename (oldPath newPath : string) (fs : gmap string FileData)
  : gmap string FileData :=
  match fs !! oldPath with
  | Some d => if decide (oldPath = newPath) then fs
              else <[newPath := d]> (delete oldPath fs)
  | None => fs
  end.

(** [if (!this.currentSessionId)]: [null] and the empty string are falsy. *)
Definition truthy_id (o : option string) : option string :=
  match o with
  | Some i => if is_empty i then None else Some i
  | None => None
  end.

(** [newName.replace(/[^a-zA-Z0-9-_ ]/g, '').trim().replace(/\s+/g, '-')] *)
Definition is_name_char (c : ascii) : bool :=
  let n := nat_of_ascii c in
  ((97 <=? n)%nat && (n <=? 122)%nat) || ((65 <=? n)%nat && (n <=? 90)%nat) ||
  ((48 <=? n)%nat && (n <=? 57)%nat) ||
  (n =? 45)%nat || (n =? 95)%nat || (n =? 32)%nat.

Definition sanitize (newName : string) : string :=
  replace_space_runs "-"%char false (trim (filter_chars is_name_char newName)).

(** [s.replace(/[:.]/g, '-')] *)
Definition dash_colon_dot (c : ascii) : ascii :=
  if (Ascii.eqb c ":"%char || Ascii.eqb c "."%char) then "-"%char else c.

Section SessionManager.

(** The n-th value of [new Date().toISOString()] read by the process. *)
Variable Date_toISOString : nat -> string.
(** [new Date(s).getTime()]; [None] is [NaN]. *)
Variable Date_getTime : string -> option Z.

Definition createSession (st : Store) : Store * string :=
  let timestamp := map_chars dash_colon_dot (Date_toISOString (ticks st)) in
  let id := "session-" +:+ timestamp in
  let filename := id +:+ json_suffix in
  let session :=
    Session.mk id filename (Date_toISOString (S (ticks st))) [] in
  (mkStore (<[filename := Json session]> (files st)) (Some id) (S (S (ticks st))),
   id).

(** The [catch] branch only logs to the console. *)
Definition logInteraction (messages : list Message) (st : Store) : Store :=
  match truthy_id (currentSessionId st) with
  | None => st
  | Some cur =>
      let filepath := cur +:+ json_suffix in
      match readSessionFile (files st) filepath with
      | Some session =>
          mkStore (<[filepath := Json (Session.with_messages session messages)]> (files st))
                  (currentSessionId st) (ticks st)
      | None => st
      end
  end.

(** [(a, b) => new Date(b.createdAt).getTime() - new Date(a.createdAt).getTime()];
    the sort reads a [NaN] result as [+0]. *)
Definition compareCreatedAt (a b : Session.t) : Z :=
  match Date_getTime (Session.createdAt b), Date_getTime (Session.createdAt a) with
  | Some tb, Some ta => (tb - ta)%Z
  | _, _ => 0%Z
  end.

Definition listSessions (st : Store) : list Session.t :=
  let sessions :=
    omap (fun file =>
            if endsWith file json_suffix
            then readSessionFile (files st) file   (* a throw is ignored *)
            else None)
         (readdir (files st)) in
  js_sort compareCreatedAt sessions.

(** The predicate of [sessions.find] in [loadSession]. *)
Definition load_matches (filenameOrId filename : string) (s : Session.t) : bool :=
  String.eqb (Session.id s) filenameOrId ||
  String.eqb (Session.filename s) filenameOrId ||
  String.eqb (Session.filename s) filename.

Definition json_name (filenameOrId : string) : string :=
  if endsWith filenameOrId json_suffix then filenameOrId
  else filenameOrId +:+ json_suffix.

Definition loadSession (filenameOrId : string) (st : Store)
  : Store * option Session.t :=
  let filename := json_name filenameOrId in
  match readSessionFile (files st) filename with
  | Some session =>
      (mkStore (files st) (Some (Session.id session)) (ticks st), Some session)
  | None =>
      let sessions := listSessions st in
      match List.find (load_matches filenameOrId filename) sessions with
      | Some session =>
          (mkStore (files st) (Some (Session.id session)) (ticks st), Some session)
      | None => (st, None)
      end
  end.

(** No file operation of the [try] block throws on this file system, so
    the [catch] branch is never taken. *)
Definition renameSession (oldIdOrFilename newName : string) (st : Store)
  : Store * bool :=
  match loadSession oldIdOrFilename st with
  | (st1, None) => (st1, false)
  | (st1, Some session) =>
      let oldPath := Session.filename session in
      let sanitized := sanitize newName in
      let newFilename := sanitized +:+ json_suffix in
      let newPath := newFilename in
      let session1 := Session.with_filename session newFilename in
      let fs1 := <[oldPath := Json session1]> (files st1) in
      let fs2 := fs_rename oldPath newPath fs1 in
      let newId := sanitized in
      let session2 := Session.with_id session1 newId in
      let fs3 := <[newPath := Json session2]> fs2 in
      let cur :=
        if decide (currentSessionId st1 = Some oldIdOrFilename
                   ∨ currentSessionId st1 = Some (Session.id session2))
        then Some newId else currentSessionId st1 in
      (mkStore fs3 cur (ticks st1), true)
  end.

End SessionManager.

(** ** The chat turn driver and the command router ([runChatSession]) *)

Definition nl : string := String "010"%char EmptyString.

(** The text from the first [</think>] on: what precedes it, what follows. *)
Fixpoint split_at_close (s : string) : option (string * string) :=
  if startsWith s "</think>" then Some (EmptyString, substring_from 8 s)
  else match s with
       | EmptyString => None
       | String c s' =>
           match split_at_close s' with
           | Some (before, after) => Some (String c before, after)
           | None => None
           end
       end.

(** [s.replace(/<think>[\s\S]*?<\/think>/g, '')], scanning left to right;
    the fuel is the number of characters still to scan. *)
Fixpoint strip_think_fuel (fuel : nat) (s : string) : string :=
  match fuel with
  | O => s
  | S fuel' =>
      match s with
      | EmptyString => EmptyString
      | String c s' =>
          if startsWith s "<think>"
          then match split_at_close (substring_from 7 s) with
               | Some (_, rest) => strip_think_fuel fuel' rest
               | None => String c (strip_think_fuel fuel' s')
               end
          else String c (strip_think_fuel fuel' s')
      end
  end.

Definition strip_think (s : string) : string :=
  strip_think_fuel (String.length s) s.

(** [s.includes(c)] for a single character. *)
Fixpoint contains_char (c : ascii) (s : string) : bool :=
  match s with
  | EmptyString => false
  | String a s' => Ascii.eqb a c || contains_char c s'
  end.

(** [content.split('\n')] *)
Fixpoint split_lines (s : string) : list string :=
  match s with
  | EmptyString => [EmptyString]
  | String c s' =>
      if Ascii.eqb c "010"%char then EmptyString :: split_lines s'
      else match split_lines s' with
           | l :: ls => String c l :: ls
           | [] => [String c EmptyString]
           end
  end.

(** [line.match(/^\s*/)?.[0].length || 0] *)
Fixpoint indent_of (line : string) : nat :=
  match line with
  | String c s' => if is_space c then S (indent_of s') else O
  | EmptyString => O
  end.

(** The minimum of [indent_of] over the lines that are not blank;
    [None] is [Infinity]. *)
Definition min_indent (lines : list string) : option nat :=
  foldl (fun acc line =>
           if is_empty (trim line) then acc
           else match acc with
                | None => Some (indent_of line)
                | Some m => Some (Nat.min m (indent_of line))
                end)
        None lines.

Fixpoint join_with (sep : string) (l : list string) : string :=
  match l with
  | [] => EmptyString
  | [x] => x
  | x :: l' => x +:+ sep +:+ join_with sep l'
  end.

(** The replacement callback of [formattedResponse]. *)
Definition format_thinking (content : string) : string :=
  let lines := split_lines content in
  let minIndent := match min_indent lines with Some m => m | None => O end in
  let processedLines := map (fun line => trimEnd (substring_from minIndent line)) lines in
  let excerpt := join_with (nl +:+ "> ") processedLines in
  nl +:+ "> **Thinking Process:**" +:+ nl +:+ "> " +:+ excerpt +:+ nl +:+ nl +:+
  "---" +:+ nl +:+ nl +:+ "**Response:**" +:+ nl +:+ nl.

(** [responseText.replace(/^\s*<think>([\s\S]*?)<\/think>/, callback)] *)
Definition formatResponse (responseText : string) : string :=
  let t := trimStart responseText in
  if startsWith t "<think>"
  then match split_at_close (substring_from 7 t) with
       | Some (content, rest) => format_thinking content +:+ rest
       | None => responseText
       end
  else responseText.

(** [responseText.replace(/<think>[\s\S]*?<\/think>/g, '').trim()], and
    [historyContent || responseText]. *)
Definition historyContent (responseText : string) : string :=
  trim (strip_think responseText).

Definition assistantContent (responseText : string) : string :=
  if is_empty (historyContent responseText) then responseText
  else historyContent responseText.

(** What [agent.generate] resolves to; [None] in a field is [undefined]. *)
Record GenerateResult := {
  text : option string;
  reasoningText : option string
}.

Definition truthy_text (o : option string) : bool :=
  match o with
  | Some s => negb (is_empty s)
  | None => false
  end.

(** [let responseText = result.text;
     if (!responseText && result.reasoningText) responseText = result.reasoningText] *)
Definition responseText_of (result : GenerateResult) : option string :=
  if negb (truthy_text (text result)) && truthy_text (reasoningText result)
  then reasoningText result else text result.

(** What the process does that an observer sees: console lines, prompts and
    the calls to the two collaborators. *)
Inductive Event :=
| OutThinking
| OutHelp
| OutContextCleared
| OutHistory (sessions : list Session.t)
| OutLoaded (id : string) (lastMsgs : list Message)
| OutSessionNotFound (sessionId : string)
| OutRenameUsage
| OutRenamed (newName : string)
| OutRenameFailed
| OutNoActiveSession
| OutEmptyResponse
| OutRendered (rendered : string)
| OutErrorGenerating
| OutPrompt
| OutAgentReady
| OutGoodbye
| CallGenerate (transcript : list Message)
| CallMarkedParse (formatted : string).

Inductive Action := quit | configure.

(** [COMMANDS] *)
Definition COMMANDS : list string :=
  ["/help"; "/config"; "/clear"; "/history"; "/load "; "/rename "; "/exit"; "/quit"].

(** The closure of one [runChatSession]: the session manager it was given,
    its local [messages] and what it has printed. *)
Record Chat := mkChat {
  store : Store;
  messages : list Message;
  trace : list Event
}.

Inductive LineResult :=
| Continue (c : Chat)                 (* [rl.prompt(); return] *)
| Resolved (a : Action) (c : Chat).   (* [rl.close(); resolve(a); return] *)

Definition emit (es : list Event) (c : Chat) : Chat :=
  mkChat (store c) (messages c) (trace c ++ es).

(** [messages.slice(-2)] *)
Definition last_two {A} (l : list A) : list A :=
  skipn (length l - 2) l.

Section CommandRouter.

Variable Date_toISOString : nat -> string.
Variable Date_getTime : string -> option Z.
(** [agent.generate(messages)]; [None] when the promise rejects.  Here the
    tools the model calls leave the session directory alone;
    [chatTurnTools] below does without this. *)
Variable agent_generate : list Message -> option GenerateResult.
(** [marked.parse(text)]; [None] when it throws. *)
Variable marked_parse : string -> option string.

(** The [try] block of the line handler, followed by [rl.prompt()]. *)
Definition chatTurn (input : string) (c : Chat) : Chat :=
  let messages1 := messages c ++ [Build_Message user input] in
  let store1 := logInteraction messages1 (store c) in
  let trace1 := trace c ++ [OutThinking; CallGenerate messages1] in
  let caught (tr : list Event) :=
    mkChat store1 messages1 (tr ++ [OutErrorGenerating; OutPrompt]) in
  match agent_generate messages1 with
  | None => caught trace1
  | Some result =>
      let trace2 :=
        trace1 ++ (if truthy_text (responseText_of result) then []
                   else [OutEmptyResponse]) in
      match responseText_of result with
      | None => caught trace2           (* [undefined.replace] throws *)
      | Some responseText =>
          let formattedResponse := formatResponse responseText in
          let trace3 := trace2 ++ [CallMarkedParse formattedResponse] in
          match marked_parse formattedResponse with
          | None => caught trace3
          | Some rendered =>
              let messages2 :=
                messages1 ++ [Build_Message assistant (assistantContent responseText)] in
              let store2 := logInteraction messages2 store1 in
              mkChat store2 messages2 (trace3 ++ [OutRendered rendered; OutPrompt])
          end
      end
  end.

Definition member_of (l : list string) (s : string) : bool :=
  existsb (String.eqb s) l.

(** [rl.on('line', async (line) => ...)] *)
Definition handleLine (line : string) (c : Chat) : LineResult :=
  let input := trim line in
  if member_of ["exit"; "quit"; "/exit"; "/quit"] input then Resolved quit c
  else if String.eqb input "/config" then Resolved configure c
  else if String.eqb input "/help" then Continue (emit [OutHelp; OutPrompt] c)
  else if String.eqb input "/clear" then
    let '(store1, _) := createSession Date_toISOString (store c) in
    Continue (mkChat store1 [] (trace c ++ [OutContextCleared; OutPrompt]))
  else if String.eqb input "/history" then
    let sessions := listSessions Date_getTime (store c) in
    Continue (emit [OutHistory (firstn 10 sessions); OutPrompt] c)
  else if startsWith input "/load " then
    let sessionId := trim (substring_from 6 input) in
    match loadSession Date_getTime sessionId (store c) with
    | (store1, Some session) =>
        let messages1 := Session.messages session in
        Continue (mkChat store1 messages1
                    (trace c ++ [OutLoaded (Session.id session) (last_two messages1);
                                 OutPrompt]))
    | (store1, None) =>
        Continue (mkChat store1 (messages c)
                    (trace c ++ [OutSessionNotFound sessionId; OutPrompt]))
    end
  else if startsWith input "/rename " then
    let newName := trim (substring_from 8 input) in
    if is_empty newName then Continue (emit [OutRenameUsage; OutPrompt] c)
    else match truthy_id (currentSessionId (store c)) with
         | Some currentId =>
             match renameSession Date_getTime currentId newName (store c) with
             | (store1, true) =>
                 Continue (mkChat store1 (messages c)
                             (trace c ++ [OutRenamed newName; OutPrompt]))
             | (store1, false) =>
                 Continue (mkChat store1 (messages c)
                             (trace c ++ [OutRenameFailed; OutPrompt]))
             end
         | None => Continue (emit [OutNoActiveSession; OutPrompt] c)
         end
  else if is_empty input then Continue (emit [OutPrompt] c)
  else Continue (chatTurn input c).

(** One call of [runChatSession(agent, sessionManager)] fed the lines the
    user types, each at the prompt that the handler of the line before has
    printed: a fresh [messages], then one handler run per line until the
    promise resolves.  The lines not read are handed back. *)
Fixpoint chatLoop (lines : list string) (c : Chat)
  : option Action * list string * Chat :=
  match lines with
  | [] => (None, [], c)
  | line :: rest =>
      match handleLine line c with
      | Continue c' => chatLoop rest c'
      | Resolved a c' => (Some a, rest, c')
      end
  end.

Definition runChatSession (lines : list string) (sessionManager : Store)
                          (tr : list Event)
  : option Action * list string * Chat :=
  chatLoop lines (mkChat sessionManager [] (tr ++ [OutPrompt])).

End CommandRouter.

(** ** The application loop ([main]) *)

Inductive Termination :=
| ProcessExit     (* [process.exit(0)] *)
| InputClosed     (* standard input ended while the prompt was waiting *)
| OutOfFuel.      (* more loop iterations than the model was given *)

Section ApplicationLoop.

Variable Date_toISOString : nat -> string.
Variable Date_getTime : string -> option Z.
(** [new Agent(...)] of the n-th loop iteration, as its [generate]. *)
Variable new_Agent : nat -> list Message -> option GenerateResult.
Variable marked_parse : string -> option string.
(** The result of [checkConnectionAndPrompt(config)] in the n-th iteration. *)
Variable checkConnectionAndPrompt : nat -> bool.

(** The body of [while (true)], iterated. *)
Fixpoint mainLoop (fuel iteration : nat) (lines : list string)
                  (sessionManager : Store) (tr : list Event)
  : Termination * Store * list Event :=
  match fuel with
  | O => (OutOfFuel, sessionManager, tr)
  | S fuel' =>
      if checkConnectionAndPrompt iteration then
        match runChatSession Date_toISOString Date_getTime
                             (new_Agent iteration) marked_parse
                             lines sessionManager (tr ++ [OutAgentReady]) with
        | (Some quit, _, c) => (ProcessExit, store c, trace c ++ [OutGoodbye])
        | (Some configure, rest, c) =>
            (* [config = await runSetupWizard()], its questions answered
               outside [lines]; then the loop continues *)
            mainLoop fuel' (S iteration) rest (store c) (trace c)
        | (None, _, c) => (InputClosed, store c, trace c)
        end
      else (ProcessExit, sessionManager, tr ++ [OutGoodbye])
  end.

(** [main()] started on the directory [dir]: the session manager is built
    and [createSession] is called once, before the loop. *)
Definition main (fuel : nat) (lines : list string) (dir : gmap string FileData)
  : Termination * Store * list Event :=
  let sessionManager := mkStore dir None O in
  let '(sessionManager1, _) := createSession Date_toISOString sessionManager in
  mainLoop fuel O lines sessionManager1 [].

End ApplicationLoop.

(** ** The suggestion engine (the patched [rl._refreshLine]) *)

(** A timeout registered with the event loop and not yet fired or cleared. *)
Record Timeout := { handle : nat; delay_ms : nat }.

Record Ghost := mkGhost {
  line : string;                       (* [rl.line] *)
  cursor : nat;                        (* [rl.cursor] *)
  suggestion : string;
  rootSuggestionTimer : option nat;    (* [NodeJS.Timeout | null] *)
  showRootSuggestion : bool;
  timeouts : list Timeout;             (* pending in the event loop *)
  nextHandle : nat;                    (* the handle [setTimeout] gives next *)
  ghostText : list string              (* dim text written to the terminal *)
}.

Definition ghost_init : Ghost :=
  mkGhost EmptyString O EmptyString None false [] O [].

(** [clearTimeout(h)] *)
Definition clearTimeout (h : nat) (ts : list Timeout) : list Timeout :=
  filter (fun t => handle t ≠ h) ts.

(** [COMMANDS.find(c => c.startsWith(line) && c !== line)] *)
Definition find_command (l : string) : option string :=
  List.find (fun c => startsWith c l && negb (String.eqb c l)) COMMANDS.

(** [rl._refreshLine] as patched, on the current [rl.line] and [rl.cursor]. *)
Definition refreshLine (g : Ghost) : Ghost :=
  let l := line g in
  (* [suggestion = ''] and the pending timer is cleared on every refresh *)
  let ts := match rootSuggestionTimer g with
            | Some h => clearTimeout h (timeouts g)
            | None => timeouts g
            end in
  if (0 <? String.length l)%nat && startsWith l "/" && (cursor g =? String.length l)%nat
  then
    if (String.length l =? 1)%nat then
      if showRootSuggestion g then
        let sug := substring_from (String.length l) (nth 0 COMMANDS EmptyString) in
        mkGhost l (cursor g) sug None true ts (nextHandle g)
                (ghostText g ++ (if is_empty sug then [] else [sug]))
      else
        (* [setTimeout(..., 500)], then [return] *)
        let h := nextHandle g in
        mkGhost l (cursor g) EmptyString (Some h) false
                (ts ++ [Build_Timeout h 500]) (S h) (ghostText g)
    else
      let sug := match find_command l with
                 | Some c => substring_from (String.length l) c
                 | None => EmptyString
                 end in
      mkGhost l (cursor g) sug None (showRootSuggestion g) ts (nextHandle g)
              (ghostText g ++ (if is_empty sug then [] else [sug]))
  else
    mkGhost l (cursor g) EmptyString None false ts (nextHandle g) (ghostText g).

(** Readline changes the line or the cursor without redrawing: a character
    typed at the end of the line is written to the terminal as it is, and
    moving the cursor moves the terminal cursor only.  [_refreshLine] is not
    called, so the engine's own state stays as it was. *)
Definition silentEdit (l : string) (c : nat) (g : Ghost) : Ghost :=
  mkGhost l c (suggestion g) (rootSuggestionTimer g) (showRootSuggestion g)
          (timeouts g) (nextHandle g) (ghostText g).

(** A key press on which readline redraws (a deletion, an insertion before
    the end of the line, a line taken from the history): it updates the
    line and the cursor and calls [_refreshLine]. *)
Definition keystroke (l : string) (c : nat) (g : Ghost) : Ghost :=
  refreshLine (mkGhost l c (suggestion g) (rootSuggestionTimer g)
                       (showRootSuggestion g) (timeouts g) (nextHandle g)
                       (ghostText g)).

(** The callback of the timeout [h] runs:
    [showRootSuggestion = true; rl._refreshLine(n)]. *)
Definition fireTimeout (h : nat) (g : Ghost) : Ghost :=
  refreshLine (mkGhost (line g) (cursor g) (suggestion g) (rootSuggestionTimer g)
                       true (clearTimeout h (timeouts g)) (nextHandle g)
                       (ghostText g)).

(** The [keypress] listener on the key [right]: with a suggestion shown and
    the cursor at the end, [rl.write(suggestion); suggestion = ''].
    Readline appends the text and moves the cursor to the end; [redraw]
    tells whether it also refreshes the line, which is its own decision. *)
Definition acceptSuggestion (redraw : bool) (g : Ghost) : Ghost :=
  if negb (is_empty (suggestion g)) && (cursor g =? String.length (line g))%nat
  then
    let l := line g +:+ suggestion g in
    let written :=
      mkGhost l (String.length l) (suggestion g) (rootSuggestionTimer g)
              (showRootSuggestion g) (timeouts g) (nextHandle g) (ghostText g) in
    let g' := if redraw then refreshLine written else written in
    mkGhost (line g') (cursor g') EmptyString (rootSuggestionTimer g')
            (showRootSuggestion g') (timeouts g') (nextHandle g') (ghostText g')
  else g.

Inductive ghost_step : Ghost -> Ghost -> Prop :=
| step_keystroke l c g : ghost_step g (keystroke l c g)
| step_timeout h g :
    h ∈ map handle (timeouts g) -> ghost_step g (fireTimeout h g)
| step_accept redraw g : ghost_step g (acceptSuggestion redraw g)
| step_edit l c g : ghost_step g (silentEdit l c g).

(** The states the engine can be in: those reached from the start by key
    presses, with or without a redraw, and by pending timeouts firing. *)
Inductive ghost_reachable : Ghost -> Prop :=
| reach_init : ghost_reachable ghost_init
| reach_step g g' : ghost_reachable g -> ghost_step g g' -> ghost_reachable g'.

Fixpoint repeat_keystroke (n : nat) (l : string) (c : nat) (g : Ghost) : Ghost :=
  match n with
  | O => g
  | S n' => repeat_keystroke n' l c (keystroke l c g)
  end.

(** ** Well-formed stores *)

(** The identity invariant of the data model: a record's [id] is the stem
    of the file name it is stored under. *)
Definition id_is_key (fs : gmap string FileData) : Prop :=
  forall file s, fs !! file = Some (Json s) -> file = Session.id s +:+ json_suffix.

(** The records of [createSession] and [renameSession] also carry their own
    file name. *)
Definition filename_is_key (fs : gmap string FileData) : Prop :=
  forall file s, fs !! file = Some (Json s) -> Session.filename s = file.

Definition store_wf (fs : gmap string FileData) : Prop :=
  id_is_key fs /\ filename_is_key fs.

(** A record that [listSessions] reads: stored under a [.json] name. *)
Definition listed (fs : gmap string FileData) (s : Session.t) : Prop :=
  exists file, endsWith file json_suffix = true /\ fs !! file = Some (Json s).

(** The files [listSessions] reads with success, as the directory lists
    them. *)
Definition is_session_file (entry : string * FileData) : bool :=
  endsWith entry.1 json_suffix &&
  match entry.2 with Json _ => true | Unparseable _ => false end.

Definition session_files (fs : gmap string FileData) : list (string * FileData) :=
  List.filter is_session_file (map_to_list fs).

(** [a] was created no earlier than [b], both dates being valid. *)
Definition not_older (Date_getTime : string -> option Z) (a b : Session.t) : Prop :=
  exists ta tb, Date_getTime (Session.createdAt a) = Some ta /\
                Date_getTime (Session.createdAt b) = Some tb /\ (tb <= ta)%Z.

(** ** Concrete collaborators

    Instances of the parameters, for running the embedding on examples. *)

Module Sample.

Definition digit (c : ascii) : option Z :=
  let n := nat_of_ascii c in
  if (48 <=? n)%nat && (n <=? 57)%nat then Some (Z.of_nat (n - 48)) else None.

Fixpoint digits (n : nat) (acc : Z) (s : string) : option (Z * string) :=
  match n with
  | O => Some (acc, s)
  | S n' =>
      match s with
      | String c s' =>
          match digit c with
          | Some d => digits n' (acc * 10 + d)%Z s'
          | None => None
          end
      | EmptyString => None
      end
  end.

Definition expect (c : ascii) (s : string) : option string :=
  match s with
  | String c' s' => if Ascii.eqb c c' then Some s' else None
  | EmptyString => None
  end.

(** Days from 1970-01-01 to the civil date [y]-[m]-[d]. *)
Definition days_from_civil (y m d : Z) : Z :=
  let y' := (if m <=? 2 then y - 1 else y)%Z in
  let era := (y' / 400)%Z in
  let yoe := (y' - era * 400)%Z in
  let mp := ((m + 9) mod 12)%Z in
  let doy := ((153 * mp + 2) / 5 + d - 1)%Z in
  let doe := (yoe * 365 + yoe / 4 - yoe / 100 + doy)%Z in
  (era * 146097 + doe - 719468)%Z.

(** [new Date(s).getTime()] on the strings [toISOString] produces,
    [YYYY-MM-DDTHH:mm:ss.sssZ]; [NaN] on every other string. *)
Definition Date_getTime (s : string) : option Z :=
  '(y, s) ← digits 4 0 s; s ← expect "-" s;
  '(m, s) ← digits 2 0 s; s ← expect "-" s;
  '(d, s) ← digits 2 0 s; s ← expect "T" s;
  '(h, s) ← digits 2 0 s; s ← expect ":" s;
  '(mi, s) ← digits 2 0 s; s ← expect ":" s;
  '(sec, s) ← digits 2 0 s; s ← expect "." s;
  '(ms, s) ← digits 3 0 s; s ← expect "Z" s;
  if is_empty s && (1 <=? m)%Z && (m <=? 12)%Z && (1 <=? d)%Z && (d <=? 31)%Z
     && (h <? 24)%Z && (mi <? 60)%Z && (sec <? 60)%Z
  then Some ((((days_from_civil y m d * 24 + h) * 60 + mi) * 60 + sec) * 1000 + ms)%Z
  else None.

(** A clock that advances by one second per reading. *)
Definition Date_toISOString (n : nat) : string :=
  nth n ["2026-01-01T10:00:00.000Z"; "2026-01-01T10:00:01.000Z";
         "2026-01-01T10:00:02.000Z"; "2026-01-01T10:00:03.000Z";
         "2026-01-01T10:00:04.000Z"; "2026-01-01T10:00:05.000Z"]
      "2026-01-01T10:00:06.000Z".

(** A model that answers every transcript with the same text. *)
Definition agent_generate (_ : list Message) : option GenerateResult :=
  Some (Build_GenerateResult (Some "<think>plan</think> Hello!") None).

Definition marked_parse (formatted : string) : option string := Some formatted.


Definition session (id createdAt : string) (messages : list Message) : Session.t :=
  Session.mk id (id +:+ json_suffix) createdAt messages.

Definition hello : list Message :=
  [Build_Message user "hello"; Build_Message assistant "Hello!"].

(** A directory with two sessions and a corrupted file. *)
Definition dir : gmap string FileData :=
  <["trip.json" := Json (session "trip" "2026-01-01T09:00:00.000Z" hello)]>
    (<["notes.json" := Json (session "notes" "2026-01-01T08:00:00.000Z" [])]>
       (<["broken.json" := Unparseable "{ not json"]> ∅)).

(** The store with the session [trip] active. *)
Definition st : Store := mkStore dir (Some "trip") O.

(** A store whose only session already has the slug of [My Name!] as
    its id. *)
Definition my_name_st : Store :=
  mkStore {[ "My-Name.json" := Json (session "My-Name" "2026-01-01T09:00:00.000Z" hello) ]}
          None O.

End Sample.

(** The line is handled as a chat message: its trimmed text is appended to
    the transcript as a user turn and the transcript is sent to the
    generation collaborator. *)
Definition handled_as_chat_message
    (Date_toISOString : nat -> string) (Date_getTime : string -> option Z)
    (agent_generate : list Message -> option GenerateResult)
    (marked_parse : string -> option string)
    (line : string) (c : Chat) : Prop :=
  let turn := Build_Message user (trim line) in
  exists c' later,
    handleLine Date_toISOString Date_getTime agent_generate marked_parse line c
    = Continue c' /\
    messages c' = messages c ++ turn :: later /\
    CallGenerate (messages c ++ [turn]) ∈ trace c'.


(** What holds between two visits of the event loop to the engine.  The
    line and the cursor are readline's and may have moved on since the
    timer was set. *)
Definition ghost_inv (g : Ghost) : Prop :=
  (timeouts g = [] \/
   exists h, timeouts g = [Build_Timeout h 500] /\
             rootSuggestionTimer g = Some h /\
             showRootSuggestion g = false /\ suggestion g = EmptyString /\
             (h < nextHandle g)%nat).

Module SampleRun.

(** The endpoint answers on every probe. *)
Definition checkConnectionAndPrompt (_ : nat) : bool := true.

Definition new_Agent (_ : nat) := Sample.agent_generate.

(** A chat, a reconfiguration, a second chat, and the end. *)
Definition lines : list string := ["hello"; "/config"; "hi"; "exit"].

Definition run : Termination * Store * list Event :=
  main Sample.Date_toISOString Sample.Date_getTime new_Agent
       Sample.marked_parse checkConnectionAndPrompt 5 lines ∅.

(** The bare prefix was typed, the delay elapsed and the first command
    was revealed. *)
Definition revealed : Ghost := fireTimeout 0 (keystroke "/" 1 ghost_init).

End SampleRun.

(** ** The tab completer ([completer] in [runChatSession]) *)

(** [[hits.length ? hits : COMMANDS, line]] *)
Definition completer (line : string) : list string * string :=
  let hits := List.filter (fun c => startsWith c line) COMMANDS in
  (match hits with [] => COMMANDS | _ :: _ => hits end, line).

(** ** The memory log ([tools.ts])

    [MEMORY.md] is [None] while the file does not exist; reading it then
    throws, and [fs.appendFile] creates it. *)

(** [s.includes(sub)] *)
Fixpoint includes (s sub : string) : bool :=
  startsWith s sub ||
  match s with
  | EmptyString => false
  | String _ s' => includes s' sub
  end.

Record ToolResult := { success : bool; message : string }.

(** [`\n- [${timestamp}] ${input.memory}`] *)
Definition memory_entry (timestamp memory : string) : string :=
  nl +:+ "- [" +:+ timestamp +:+ "] " +:+ memory.

Definition saveMemoryTool (timestamp memory : string) (file : option string)
  : option string * ToolResult :=
  let data := match file with Some d => d | None => EmptyString end in
  (Some (data +:+ memory_entry timestamp memory),
   Build_ToolResult true "Memory saved.").

Definition readMemoryTool (file : option string) : string :=
  match file with
  | Some data => data
  | None => "No memories found."
  end.

Definition deleteMemoryTool (memory : string) (file : option string)
  : option string * ToolResult :=
  match file with
  | None => (None, Build_ToolResult false "Failed to delete memory.")
  | Some data =>
      let lines := split_lines data in
      let memoryToDelete := trim memory in
      let newLines := List.filter (fun line => negb (includes line memoryToDelete)) lines in
      if (length newLines =? length lines)%nat
      then (file, Build_ToolResult false "Memory not found.")
      else (Some (join_with nl newLines), Build_ToolResult true "Memory deleted.")
  end.



(** ** The configuration file ([config-wizard.ts])

    A configuration is the object [JSON.parse] returns, a finite map from
    field names to strings; a field that is [undefined] is absent.
    [config.json] is [None] while the file does not exist. *)

Inductive ConfigData :=
| ConfigUnparseable (raw : string)
| ConfigJson (config : gmap string string).

Definition DEFAULT_CONFIG : gmap string string :=
  <["provider" := "lm-studio"]>
    (<["baseUrl" := "http://localhost:1234/v1"]>
       (<["modelId" := "mistralai/ministral-3-14b-reasoning"]> ∅)).

(** The migration of [loadConfig]:
    [if (!config.baseUrl && config.lmStudioUrl) { ... }] *)
Definition migrate (config : gmap string string) : gmap string string :=
  match config !! "lmStudioUrl" with
  | Some url =>
      if negb (truthy_text (config !! "baseUrl")) && negb (is_empty url)
      then delete "lmStudioUrl"
             (<["provider" := "lm-studio"]> (<["baseUrl" := url]> config))
      else config
  | None => config
  end.

Definition loadConfig (file : option ConfigData) : gmap string string :=
  match file with
  | Some (ConfigJson config) => migrate config
  | Some (ConfigUnparseable _) => DEFAULT_CONFIG
  | None => DEFAULT_CONFIG
  end.

Definition saveConfig (config : gmap string string) : option ConfigData :=
  Some (ConfigJson config).




Section SetupWizard.

(** [checkServiceRunning(port)]; [checkLMStudioInstalled()] only selects
    the message printed. *)
Variable checkServiceRunning : N -> bool.



End SetupWizard.

(** ** Character classes of strings *)

(** Every character of [s] satisfies [p]. *)
Fixpoint all_chars (p : ascii -> bool) (s : string) : bool :=
  match s with
  | EmptyString => true
  | String c s' => p c && all_chars p s'
  end.

(** The characters a slug is made of: letters, digits, [-] and [_]. *)
Definition is_slug_char (c : ascii) : bool := is_name_char c && negb (is_space c).

(** The tests of the line handler that take an input for a command. *)
Definition is_command (input : string) : bool :=
  member_of ["exit"; "quit"; "/exit"; "/quit"; "/config"; "/help"; "/clear"; "/history"]
            input
  || startsWith input "/load " || startsWith input "/rename ".

(** The state the line handler leaves, whether or not the loop goes on. *)
Definition chat_of (r : LineResult) : Chat :=
  match r with
  | Continue c => c
  | Resolved _ c => c
  end.

(** The suggestion, if any, completes the line to a command and the cursor
    is at the end of the line: what holds right after a line refresh. *)
Definition suggestion_completes (g : Ghost) : Prop :=
  suggestion g = EmptyString \/
  ((line g +:+ suggestion g) ∈ COMMANDS /\ cursor g = String.length (line g) /\
   startsWith (line g) "/" = true).

(** The legacy configuration the migration test writes. *)
Definition legacy_config : gmap string string :=
  <["lmStudioUrl" := "http://legacy-host:1234/v1"]>
    (<["modelId" := "legacy-model"]> (<["apiKey" := "legacy-key"]> ∅)).

(** The lines [deleteMemoryTool] keeps, and the line [replaceMemoryTool]
    writes for each line. *)
Definition kept_lines (needle data : string) : list string :=
  List.filter (fun line => negb (includes line needle)) (split_lines data).


(** ** Where the embedding is exact *)

(** A character of ASCII.  [String.prototype.trim] also removes the white
    space of Unicode beyond ASCII (U+00A0, U+FEFF, U+2028 and others),
    which [trim] does not know; on a line of ASCII characters the two
    agree. *)
Definition is_ascii (c : ascii) : bool := (nat_of_ascii c <? 128)%nat.

(** A name with no path separator in it: [path.join(SESSION_DIR, name)] is
    then the entry [name] of the session directory, which is how
    [readSessionFile] looks it up.  With a separator, [path.join]
    normalises the path ([./trip.json] is the entry [trip.json]) or leaves
    the directory. *)
Definition is_plain_name (name : string) : bool :=
  negb (contains_char "/" name) && negb (contains_char "\" name).

(** A file name the file system takes: 255 bytes at most.  With a longer
    one [fs.writeFile] and [fs.rename] throw [ENAMETOOLONG], and the [catch]
    branch of [renameSession], which [renameSession] above leaves out,
    returns false. *)
Definition fits_file_name (name : string) : bool :=
  (String.length name <=? 255)%nat.

(** ** The chat turn with the agent's tools

    [agent.generate] does not only answer.  While it runs the model may call
    the agent's tools, and these act on the memory log and, through the
    [SessionManager] of [tools.ts], on the session directory:
    [renameSessionTool] renames a record.  That manager has an
    active-session pointer of its own, so the pointer of the chat's manager
    is out of the tools' reach. *)

Section ChatTurnTools.

Variable Date_toISOString : nat -> string.
Variable Date_getTime : string -> option Z.
(** [agent.generate(messages)] started on a store: the store its tool calls
    leave, of which the directory and the clock count, and the result,
    [None] when the promise rejects. *)
Variable agent_run : list Message -> Store -> Store * option GenerateResult.
Variable marked_parse : string -> option string.

(** The [try] block of the line handler, followed by [rl.prompt()]. *)
Definition chatTurnTools (input : string) (c : Chat) : Chat :=
  let messages1 := messages c ++ [Build_Message user input] in
  let store0 := logInteraction messages1 (store c) in
  let trace1 := trace c ++ [OutThinking; CallGenerate messages1] in
  let after := (agent_run messages1 store0).1 in
  let store1 := mkStore (files after) (currentSessionId store0) (ticks after) in
  let caught (tr : list Event) :=
    mkChat store1 messages1 (tr ++ [OutErrorGenerating; OutPrompt]) in
  match (agent_run messages1 store0).2 with
  | None => caught trace1
  | Some result =>
      let trace2 :=
        trace1 ++ (if truthy_text (responseText_of result) then []
                   else [OutEmptyResponse]) in
      match responseText_of result with
      | None => caught trace2
      | Some responseText =>
          let formattedResponse := formatResponse responseText in
          let trace3 := trace2 ++ [CallMarkedParse formattedResponse] in
          match marked_parse formattedResponse with
          | None => caught trace3
          | Some rendered =>
              let messages2 :=
                messages1 ++ [Build_Message assistant (assistantContent responseText)] in
              let store2 := logInteraction messages2 store1 in
              mkChat store2 messages2 (trace3 ++ [OutRendered rendered; OutPrompt])
          end
      end
  end.

(** The line handler with such an agent.  The branches of the commands and
    of the empty line do not call the agent and are those of [handleLine]. *)
Definition handleLineTools (line : string) (c : Chat) : LineResult :=
  let input := trim line in
  if is_command input || is_empty input
  then handleLine Date_toISOString Date_getTime (fun _ => None) marked_parse line c
  else Continue (chatTurnTools input c).

End ChatTurnTools.

(** An agent whose tools are never called. *)
Definition no_tools (agent_generate : list Message -> option GenerateResult)
  : list Message -> Store -> Store * option GenerateResult :=
  fun messages st => (st, agent_generate messages).

(** ** Session files as [JSON.parse] reads them

    [Json s] is a file whose text parses to a record of the declared type
    [Session].  [JSON.parse] takes any JSON text, and [listSessions] pushes
    whatever it returns; what follows tells what the listing does with
    values of any shape. *)

#[warnings="-register-all"] Inductive JsValue :=
| JNull
| JBool (b : bool)
| JNumber (literal : string)
| JString (s : string)
| JArray (items : list JsValue)
| JObject (fields : list (string * JsValue)).

Inductive RawFile :=
| RawUnparseable (raw : string)   (* [JSON.parse] throws *)
| RawJson (v : JsValue).          (* [JSON.parse] returns [v] *)

(** How a call completes. *)
Inductive Completion (A : Type) :=
| Throws                 (* a [TypeError] reaches the caller *)
| Returns (a : A).

Arguments Throws {A}.
Arguments Returns {A} a.

Definition is_null (v : JsValue) : bool :=
  match v with JNull => true | _ => false end.

(** [v[key]] for a value [v] that is not [null]: the field of an object, the
    last one when the text repeats the key; [undefined], here [None], on a
    boolean, a number, a string or an array. *)
Definition get_field (key : string) (v : JsValue) : option JsValue :=
  match v with
  | JObject fields =>
      snd <$> List.find (fun field => String.eqb field.1 key) (rev fields)
  | _ => None
  end.

Definition message_json (m : Message) : JsValue :=
  JObject [("role", JString (match role m with
                             | user => "user"
                             | assistant => "assistant"
                             end));
           ("content", JString (content m))].

(** The value [JSON.parse] returns on [JSON.stringify(s, null, 2)]. *)
Definition session_json (s : Session.t) : JsValue :=
  JObject [("id", JString (Session.id s));
           ("filename", JString (Session.filename s));
           ("createdAt", JString (Session.createdAt s));
           ("messages", JArray (map message_json (Session.messages s)))].

Definition raw_file (d : FileData) : RawFile :=
  match d with
  | Unparseable raw => RawUnparseable raw
  | Json s => RawJson (session_json s)
  end.

Section RawListing.

Variable Date_getTime : string -> option Z.
(** [new Date(v).getTime()] for [v] that is not a string; [None] as the
    argument is [undefined], [None] as the result is [NaN]. *)
Variable Date_of_value : option JsValue -> option Z.

(** [new Date(v.createdAt).getTime()], for [v] that is not [null]. *)
Definition raw_time (v : JsValue) : option Z :=
  match get_field "createdAt" v with
  | Some (JString s) => Date_getTime s
  | other => Date_of_value other
  end.

(** The comparator of [listSessions] on two values that are not [null]. *)
Definition compareCreatedAtRaw (a b : JsValue) : Z :=
  match raw_time b, raw_time a with
  | Some tb, Some ta => (tb - ta)%Z
  | _, _ => 0%Z
  end.

(** [sessions.sort(...)].  The comparator reads [createdAt] of both its
    arguments, which throws on [null]; and a sort of two elements or more
    passes every element to the comparator. *)
Definition sortRaw (sessions : list JsValue) : Completion (list JsValue) :=
  if (2 <=? length sessions)%nat && existsb is_null sessions then Throws
  else Returns (js_sort compareCreatedAtRaw sessions).

Definition readRawFile (dir : gmap string RawFile) (file : string) : option JsValue :=
  match dir !! file with
  | Some (RawJson v) => Some v
  | Some (RawUnparseable _) => None
  | None => None
  end.

(** [listSessions()] on a directory of any content. *)
Definition listSessionsRaw (dir : gmap string RawFile) : Completion (list JsValue) :=
  let sessions :=
    omap (fun file =>
            if endsWith file json_suffix
            then readRawFile dir file   (* a throw is ignored *)
            else None)
         ((map_to_list dir).*1) in
  sortRaw sessions.


End RawListing.

(** A value that [listSessions] reads: held by a [.json] file that
    parses. *)
Definition raw_listed (dir : gmap string RawFile) (v : JsValue) : Prop :=
  exists file, endsWith file json_suffix = true /\ dir !! file = Some (RawJson v).



(** ** More concrete stores and collaborators *)

Module SampleMore.


(** A store whose only record is in the file [a.json] and says that its
    file is [zzz.json]. *)
Definition misfiled_st : Store :=
  mkStore {[ "a.json" := Json (Session.mk "a" "zzz.json" "2026-01-01T09:00:00.000Z"
                                          Sample.hello) ]}
          None O.





(** No value but a string is a date here. *)
Definition Date_of_value (_ : option JsValue) : option Z := None.

End SampleMore.

(** * Properties *)

(** ** Strings *)

Lemma endsWith_app (a b : string) : endsWith (a +:+ b) b = true.
Proof.
  induction a as [|c a IH]; simpl.
  - destruct b; simpl; [reflexivity|].
    rewrite Ascii.eqb_refl, String.eqb_refl. reflexivity.
  - rewrite IH. apply orb_true_r.
Qed.

Lemma startsWith_app (p r : string) : startsWith (p +:+ r) p = true.
Proof.
  induction p as [|c p IH]; simpl; [reflexivity|].
  rewrite Ascii.eqb_refl, IH. reflexivity.
Qed.

Lemma startsWith_inv (s p : string) :
  startsWith s p = true -> s = p +:+ substring_from (String.length p) s.
Proof.
  revert s. induction p as [|b p IH]; intros s H; simpl in *; [reflexivity|].
  destruct s as [|a s]; [discriminate|].
  apply andb_true_iff in H as [Hab Hs].
  apply Ascii.eqb_eq in Hab. subst b. cbn. f_equal. apply IH, Hs.
Qed.

Lemma append_length (a b : string) :
  String.length (a +:+ b) = (String.length a + String.length b)%nat.
Proof. induction a; simpl; congruence. Qed.

Lemma append_inj_l (a b x : string) : a +:+ x = b +:+ x -> a = b.
Proof.
  revert b. induction a as [|c a IH]; intros [|d b] H; simpl in H.
  - reflexivity.
  - apply (f_equal String.length) in H. simpl in H.
    rewrite append_length in H. lia.
  - apply (f_equal String.length) in H. simpl in H.
    rewrite append_length in H. lia.
  - injection H as -> H. f_equal. apply IH, H.
Qed.

Lemma json_name_endsWith (x : string) : endsWith (json_name x) json_suffix = true.
Proof.
  unfold json_name. destruct (endsWith x json_suffix) eqn:E; [exact E|].
  apply endsWith_app.
Qed.

(** *** Slugs

    A slug holds letters, digits, [-] and [_] only; in particular it has
    no dot, so an id that [renameSession] assigns never ends in [.json]. *)

Lemma filter_chars_no_dot (newName : string) :
  contains_char "." (filter_chars is_name_char newName) = false.
Proof.
  induction newName as [|c s IH]; [reflexivity|]. simpl.
  destruct (is_name_char c) eqn:E; [|exact IH].
  simpl. rewrite IH, orb_false_r.
  destruct (Ascii.eqb_spec c "."); [subst c; discriminate|reflexivity].
Qed.

Lemma trimStart_no_dot (s : string) :
  contains_char "." s = false -> contains_char "." (trimStart s) = false.
Proof.
  induction s as [|c s IH]; [done|]. intros H. simpl.
  destruct (is_space c); [|exact H].
  simpl in H. apply orb_false_iff in H as [_ H]. by apply IH.
Qed.

Lemma trimEnd_no_dot (s : string) :
  contains_char "." s = false -> contains_char "." (trimEnd s) = false.
Proof.
  induction s as [|c s IH]; [done|]. intros H.
  simpl in H. apply orb_false_iff in H as [Hc H]. specialize (IH H).
  simpl. destruct (trimEnd s) as [|d t].
  - destruct (is_space c); [done|]. simpl. by rewrite Hc.
  - change (contains_char "." (String c (String d t)))
      with (Ascii.eqb c "." || contains_char "." (String d t)).
    by rewrite Hc, IH.
Qed.

Lemma replace_space_runs_no_dot (in_run : bool) (s : string) :
  contains_char "." s = false ->
  contains_char "." (replace_space_runs "-" in_run s) = false.
Proof.
  revert in_run. induction s as [|c s IH]; intros in_run H; [done|].
  simpl in H. apply orb_false_iff in H as [Hc H]. simpl.
  destruct (is_space c); [destruct in_run|]; simpl; rewrite ?Hc; by apply IH.
Qed.

Lemma sanitize_no_dot (newName : string) :
  contains_char "." (sanitize newName) = false.
Proof.
  unfold sanitize, trim.
  apply replace_space_runs_no_dot, trimEnd_no_dot, trimStart_no_dot,
        filter_chars_no_dot.
Qed.

Lemma endsWith_json_has_dot (s : string) :
  endsWith s json_suffix = true -> contains_char "." s = true.
Proof.
  induction s as [|c s IH]; [done|]. intros H.
  cbn [endsWith] in H. apply orb_true_iff in H as [H|H].
  - apply String.eqb_eq in H. by rewrite H.
  - simpl. rewrite (IH H). apply orb_true_r.
Qed.

Lemma sanitize_not_json (newName : string) :
  endsWith (sanitize newName) json_suffix = false.
Proof.
  destruct (endsWith _ _) eqn:E; [|reflexivity].
  apply endsWith_json_has_dot in E. by rewrite sanitize_no_dot in E.
Qed.

(** ** Sorting *)

Section JsSortFacts.
Context {A : Type} (cmp : A -> A -> Z).

Lemma insert_sorted_perm (x : A) (l : list A) :
  Permutation (insert_sorted cmp x l) (x :: l).
Proof.
  induction l as [|y l IH]; simpl; [reflexivity|].
  destruct (cmp x y <=? 0)%Z; [reflexivity|].
  rewrite IH. apply perm_swap.
Qed.

Lemma js_sort_perm (l : list A) : Permutation (js_sort cmp l) l.
Proof.
  induction l as [|x l IH]; simpl; [reflexivity|].
  rewrite insert_sorted_perm. by constructor.
Qed.

Lemma elem_of_js_sort (x : A) (l : list A) : x ∈ js_sort cmp l ↔ x ∈ l.
Proof. by rewrite (js_sort_perm l). Qed.

Hypothesis cmp_antisym : forall a b, (cmp b a = - cmp a b)%Z.


End JsSortFacts.

(** ** The session store *)

Lemma find_none_iff {A} (f : A -> bool) (l : list A) :
  List.find f l = None <-> forall x, x ∈ l -> f x = false.
Proof.
  induction l as [|y l IH]; simpl.
  - split; [|done]. intros _ x Hx. by apply elem_of_nil in Hx.
  - destruct (f y) eqn:E.
    + split; [discriminate|]. intros H. rewrite (H y) in E; [discriminate|left].
    + rewrite IH. split.
      * intros H x Hx. apply elem_of_cons in Hx as [->|Hx]; auto.
      * intros H x Hx. apply H. by right.
Qed.

Lemma readSessionFile_Some fs file s :
  readSessionFile fs file = Some s <-> fs !! file = Some (Json s).
Proof.
  unfold readSessionFile. destruct (fs !! file) as [[raw|s']|]; split; congruence.
Qed.

Section StoreFacts.

Variable Date_toISOString : nat -> string.
Variable Date_getTime : string -> option Z.


Lemma compareCreatedAt_antisym a b :
  (compareCreatedAt Date_getTime b a = - compareCreatedAt Date_getTime a b)%Z.
Proof.
  unfold compareCreatedAt.
  destruct (Date_getTime (Session.createdAt a)), (Date_getTime (Session.createdAt b)); lia.
Qed.

Lemma elem_of_listSessions st s :
  s ∈ listSessions Date_getTime st <-> listed (files st) s.
Proof.
  unfold listSessions, listed, readdir.
  rewrite elem_of_js_sort, list_elem_of_omap. split.
  - intros (file & Hin & Hf).
    destruct (endsWith file json_suffix) eqn:E; [|discriminate].
    exists file. split; [done|]. by apply readSessionFile_Some.
  - intros (file & E & Hf). exists file. split.
    + apply list_elem_of_fmap. exists (file, Json s). split; [done|].
      by apply elem_of_map_to_list.
    + rewrite E. by apply readSessionFile_Some.
Qed.

(** [loadSession] never touches the directory or the clock. *)
Lemma loadSession_files x st :
  files (loadSession Date_getTime x st).1 = files st /\ ticks (loadSession Date_getTime x st).1 = ticks st.
Proof.
  unfold loadSession.
  destruct (readSessionFile _ _); [done|].
  destruct (List.find _ _); done.
Qed.

(** What a successful [loadSession] returns is a stored record, and it
    becomes the active one. *)
Lemma loadSession_Some x st st' s :
  loadSession Date_getTime x st = (st', Some s) ->
  st' = mkStore (files st) (Some (Session.id s)) (ticks st) /\
  (files st !! json_name x = Some (Json s) \/
   (readSessionFile (files st) (json_name x) = None /\ listed (files st) s /\
    load_matches x (json_name x) s = true)).
Proof.
  unfold loadSession.
  destruct (readSessionFile _ _) as [s0|] eqn:E.
  - intros [= <- <-]. split; [done|]. left. by apply readSessionFile_Some.
  - destruct (List.find _ _) as [s0|] eqn:F; [|discriminate].
    intros [= <- <-]. split; [done|]. right. split; [done|].
    apply find_some in F as [Hin Hm]. split; [|done].
    apply elem_of_listSessions. by apply list_elem_of_In.
Qed.

Lemma loadSession_None x st :
  readSessionFile (files st) (json_name x) = None ->
  (forall s, listed (files st) s -> load_matches x (json_name x) s = false) ->
  loadSession Date_getTime x st = (st, None).
Proof.
  intros Hr Hl. unfold loadSession. rewrite Hr.
  replace (List.find _ _) with (@None Session.t); [done|].
  symmetry. apply find_none_iff. intros s Hs. apply Hl.
  by apply elem_of_listSessions.
Qed.

(** The list before sorting has one record per session file. *)
Lemma omap_session_files_length (fs : gmap string FileData) (l : list (string * FileData)) :
  (forall e, e ∈ l -> fs !! e.1 = Some e.2) ->
  length (omap (fun file => if endsWith file json_suffix
                            then readSessionFile fs file else None) (l.*1))
  = length (List.filter is_session_file l).
Proof.
  induction l as [|[k d] l IH]; intros Hl; [reflexivity|].
  assert (IH' := IH (fun e He => Hl e (list_elem_of_further _ _ _ He))).
  assert (Hk := Hl (k, d) (list_elem_of_here _ _)). simpl in Hk.
  cbn [fmap list_fmap omap list_omap List.filter fst].
  unfold is_session_file at 1, readSessionFile at 1. cbn [fst snd].
  rewrite Hk. destruct (endsWith k json_suffix), d; simpl; auto.
Qed.

Lemma listSessions_length st :
  length (listSessions Date_getTime st) = length (session_files (files st)).
Proof.
  unfold listSessions, session_files, readdir.
  rewrite (Permutation_length (js_sort_perm _ _)).
  apply omap_session_files_length.
  intros [k d] He. by apply elem_of_map_to_list.
Qed.

Lemma not_older_trans : Transitive (not_older Date_getTime).
Proof.
  intros a b c (ta & tb & Ha & Hb & Hab) (tb' & tc & Hb' & Hc & Hbc).
  exists ta, tc. repeat split; [done..|]. simplify_eq. lia.
Qed.

Lemma in_order_not_older (l : list Session.t) :
  (forall s, s ∈ l -> is_Some (Date_getTime (Session.createdAt s))) ->
  Sorted (in_order (compareCreatedAt Date_getTime)) l ->
  Sorted (not_older Date_getTime) l.
Proof.
  intros Hv Hs. induction Hs as [|a l Hs IH Hd]; [constructor|].
  constructor.
  - apply IH. intros s Hs'. apply Hv. by right.
  - destruct Hd as [|b l Hab]; constructor.
    destruct (Hv a) as [ta Ha]; [left|].
    destruct (Hv b) as [tb Hb]; [right; left|].
    exists ta, tb. repeat split; [done..|].
    unfold in_order, compareCreatedAt in Hab. rewrite Ha, Hb in Hab. lia.
Qed.

(** *** The files a rename leaves *)

Lemma rename_files_lookup (fs : gmap string FileData) oldPath newPath s1 s2 file :
  (<[newPath := Json s2]> (fs_rename oldPath newPath (<[oldPath := Json s1]> fs))) !! file
  = if decide (file = newPath) then Some (Json s2)
    else if decide (file = oldPath) then None
    else fs !! file.
Proof.
  unfold fs_rename. rewrite lookup_insert_eq.
  destruct (decide (file = newPath)) as [->|Hn].
  - by rewrite lookup_insert_eq.
  - rewrite lookup_insert_ne by done.
    destruct (decide (oldPath = newPath)) as [->|Ho].
    + rewrite lookup_insert_ne by done.
      destruct (decide (file = newPath)); [done|]. done.
    + rewrite lookup_insert_ne by done.
      destruct (decide (file = oldPath)) as [->|Hf].
      * by rewrite lookup_delete_eq.
      * rewrite lookup_delete_ne by done. by rewrite lookup_insert_ne.
Qed.

Lemma renameSession_unfold x newName st st1 session :
  loadSession Date_getTime x st = (st1, Some session) ->
  renameSession Date_getTime x newName st =
  (mkStore
     (<[sanitize newName +:+ json_suffix :=
          Json (Session.with_id
                  (Session.with_filename session (sanitize newName +:+ json_suffix))
                  (sanitize newName))]>
        (fs_rename (Session.filename session) (sanitize newName +:+ json_suffix)
           (<[Session.filename session :=
                Json (Session.with_filename session (sanitize newName +:+ json_suffix))]>
              (files st1))))
     (if decide (currentSessionId st1 = Some x
                 ∨ currentSessionId st1 = Some (sanitize newName))
      then Some (sanitize newName) else currentSessionId st1)
     (ticks st1), true).
Proof. intros H. unfold renameSession. rewrite H. reflexivity. Qed.

Lemma renameSession_fail x newName st :
  (loadSession Date_getTime x st).2 = None ->
  renameSession Date_getTime x newName st = ((loadSession Date_getTime x st).1, false).
Proof.
  unfold renameSession. destruct (loadSession Date_getTime x st) as [st1 [s|]]; [discriminate|done].
Qed.

Lemma renameSession_id_is_key x newName st :
  id_is_key (files st) -> id_is_key (files (renameSession Date_getTime x newName st).1).
Proof.
  intros Hinv.
  destruct (loadSession Date_getTime x st) as [st1 [session|]] eqn:L.
  - rewrite (renameSession_unfold _ _ _ _ _ L). simpl.
    apply loadSession_Some in L as [-> _]. simpl.
    intros file s. rewrite rename_files_lookup.
    destruct (decide (file = _)) as [->|]; [by intros [= <-]|].
    destruct (decide (file = _)); [done|]. apply Hinv.
  - rewrite renameSession_fail by (by rewrite L). rewrite L. simpl.
    pose proof (loadSession_files x st) as [Hf _]. rewrite L in Hf. simpl in Hf.
    by rewrite Hf.
Qed.

Lemma renameSession_store_wf x newName st :
  store_wf (files st) -> store_wf (files (renameSession Date_getTime x newName st).1).
Proof.
  intros [Hid Hfn]. split; [by apply renameSession_id_is_key|].
  destruct (loadSession Date_getTime x st) as [st1 [session|]] eqn:L.
  - rewrite (renameSession_unfold _ _ _ _ _ L). simpl.
    apply loadSession_Some in L as [-> _]. simpl.
    intros file s. rewrite rename_files_lookup.
    destruct (decide (file = _)) as [->|]; [by intros [= <-]|].
    destruct (decide (file = _)); [done|]. apply Hfn.
  - rewrite renameSession_fail by (by rewrite L). rewrite L. simpl.
    pose proof (loadSession_files x st) as [Hf _]. rewrite L in Hf. simpl in Hf.
    by rewrite Hf.
Qed.



(** *** Renaming a session named by its id *)

Lemma loadSession_by_id st file s :
  store_wf (files st) ->
  files st !! file = Some (Json s) ->
  endsWith (Session.id s) json_suffix = false ->
  loadSession Date_getTime (Session.id s) st
  = (mkStore (files st) (Some (Session.id s)) (ticks st), Some s).
Proof.
  intros [Hid _] Hs He. unfold loadSession, json_name. rewrite He.
  rewrite (Hid _ _ Hs) in Hs.
  apply readSessionFile_Some in Hs. by rewrite Hs.
Qed.

Lemma renameSession_by_id st file s newName :
  store_wf (files st) ->
  files st !! file = Some (Json s) ->
  endsWith (Session.id s) json_suffix = false ->
  exists st',
    renameSession Date_getTime (Session.id s) newName st = (st', true) /\
    currentSessionId st' = Some (sanitize newName) /\
    ticks st' = ticks st /\
    forall f, files st' !! f =
              if decide (f = sanitize newName +:+ json_suffix)
              then Some (Json (Session.mk (sanitize newName)
                                          (sanitize newName +:+ json_suffix)
                                          (Session.createdAt s) (Session.messages s)))
              else if decide (f = Session.id s +:+ json_suffix) then None
              else files st !! f.
Proof.
  intros Hwf Hs He.
  pose proof (loadSession_by_id _ _ _ Hwf Hs He) as L.
  rewrite (renameSession_unfold _ newName _ _ _ L).
  eexists. split; [reflexivity|]. simpl.
  split; [by rewrite decide_True by (by left)|]. split; [done|].
  intros f. rewrite rename_files_lookup.
  destruct Hwf as [Hid Hfn]. rewrite (Hfn _ _ Hs), (Hid _ _ Hs). done.
Qed.

End StoreFacts.


(** The example directory is well formed. *)
Lemma sample_dir_wf : store_wf Sample.dir.
Proof.
  split; intros file s H; unfold Sample.dir in H;
    repeat (rewrite lookup_insert in H; case_decide; [by simplify_eq|]);
    by rewrite lookup_empty in H.
Qed.


(** C2, as the code has it.  In a well-formed store, take a stored session
    whose id [oldId] is not itself the slug [My-Name] and does not end in
    [.json] (no id that [renameSession] assigns does, [sanitize_not_json]).
    Then [renameSession(oldId, "My Name!")] succeeds and leaves,
    under [My-Name.json], the same record with its id set to [My-Name];
    [loadSession("My-Name")] returns that record, and [loadSession(oldId)]
    returns null. *)
Theorem rename_My_Name
    (Date_getTime : string -> option Z) (st : Store) (file : string) (s : Session.t) :
  store_wf (files st) ->
  files st !! file = Some (Json s) ->
  endsWith (Session.id s) json_suffix = false ->
  Session.id s <> "My-Name" ->
  exists st' r,
    renameSession Date_getTime (Session.id s) "My Name!" st = (st', true) /\
    files st' !! "My-Name.json" = Some (Json r) /\
    Session.id r = "My-Name" /\
    Session.messages r = Session.messages s /\
    Session.createdAt r = Session.createdAt s /\
    (loadSession Date_getTime "My-Name" st').2 = Some r /\
    (loadSession Date_getTime (Session.id s) st').2 = None.
Proof.
  intros Hwf Hs He Hne.
  destruct (renameSession_by_id Date_getTime st file s "My Name!" Hwf Hs He)
    as (st' & Hr & Hcur & _ & Hfiles).
  change (sanitize "My Name!") with "My-Name" in *.
  assert (Hwf' : store_wf (files st')).
  { pose proof (renameSession_store_wf Date_getTime (Session.id s) "My Name!" st Hwf) as H.
    by rewrite Hr in H. }
  assert (Hnew : files st' !! "My-Name.json" = Some
            (Json (Session.mk "My-Name" "My-Name.json"
                     (Session.createdAt s) (Session.messages s)))).
  { rewrite Hfiles. by rewrite decide_True. }
  assert (Hold : files st' !! (Session.id s +:+ json_suffix) = None).
  { rewrite Hfiles. rewrite decide_False.
    - by rewrite decide_True.
    - intros Heq. apply Hne. by apply (append_inj_l _ "My-Name" json_suffix). }
  exists st', (Session.mk "My-Name" "My-Name.json" (Session.createdAt s) (Session.messages s)).
  repeat split; try done.
  - unfold loadSession. change (json_name "My-Name") with "My-Name.json".
    apply readSessionFile_Some in Hnew. by rewrite Hnew.
  - assert (Hjn : json_name (Session.id s) = Session.id s +:+ json_suffix).
    { unfold json_name. by rewrite He. }
    rewrite loadSession_None; [done| |].
    + rewrite Hjn. unfold readSessionFile. by rewrite Hold.
    + intros s' (f' & Hend & Hs'). rewrite Hjn.
      destruct Hwf' as [Hid' Hfn'].
      pose proof (Hid' _ _ Hs') as Hk. pose proof (Hfn' _ _ Hs') as Hf.
      unfold load_matches.
      destruct (String.eqb_spec (Session.id s') (Session.id s)) as [E|_].
      { rewrite Hk, E in Hs'. congruence. }
      destruct (String.eqb_spec (Session.filename s') (Session.id s)) as [E|_].
      { rewrite Hf in E. rewrite E in Hend. congruence. }
      destruct (String.eqb_spec (Session.filename s') (Session.id s +:+ json_suffix)) as [E|_].
      { rewrite Hf in E. rewrite E in Hs'. congruence. }
      reflexivity.
Qed.

Lemma rename_My_Name_witness :
  exists st' r,
    renameSession Sample.Date_getTime "trip" "My Name!" Sample.st = (st', true) /\
    files st' !! "My-Name.json" = Some (Json r) /\
    Session.id r = "My-Name" /\
    Session.messages r = Sample.hello /\
    Session.createdAt r = "2026-01-01T09:00:00.000Z" /\
    (loadSession Sample.Date_getTime "My-Name" st').2 = Some r /\
    (loadSession Sample.Date_getTime "trip" st').2 = None.
Proof.
  apply (rename_My_Name Sample.Date_getTime Sample.st "trip.json"
           (Sample.session "trip" "2026-01-01T09:00:00.000Z" Sample.hello)).
  - exact sample_dir_wf.
  - reflexivity.
  - reflexivity.
  - discriminate.
Defined.

(** C2 as stated fails where the session renamed already has the id
    [My-Name]: the store is well formed, the rename succeeds, and the old
    id still resolves, to the renamed record. *)
Lemma rename_My_Name_old_id_still_loads :
  let st := Sample.my_name_st in
  let oldId := "My-Name" in
  store_wf (files st) /\
  (exists s, files st !! "My-Name.json" = Some (Json s) /\ Session.id s = oldId) /\
  exists st' r,
    renameSession Sample.Date_getTime oldId "My Name!" st = (st', true) /\
    (loadSession Sample.Date_getTime oldId st').2 = Some r /\
    (loadSession Sample.Date_getTime oldId st').2 <> None.
Proof.
  split; [|split].
  - split; intros file s H; unfold Sample.my_name_st in H; simpl in H;
      apply lookup_singleton_Some in H as [<- H]; by simplify_eq.
  - eexists. split; [reflexivity|reflexivity].
  - eexists. eexists. split; [vm_compute; reflexivity|].
    split; [vm_compute; reflexivity|vm_compute; discriminate].
Qed.

(** C4, evaluated on the example store, where [trip] is the active session.
    Renaming the session [notes], which is not active, by its id makes the
    renamed session the active one: [loadSession] inside [renameSession]
    has already switched the pointer.  Renaming the active session [trip]
    by its file name leaves the pointer on the old id [trip], which no
    longer resolves: the test compares with [session.id] after it has been
    overwritten by the new id. *)
Theorem renameSession_pointer_divergence :
  currentSessionId Sample.st = Some "trip" /\
  (exists st',
     renameSession Sample.Date_getTime "notes" "Archive" Sample.st = (st', true) /\
     currentSessionId st' = Some "Archive") /\
  (exists st' r,
     renameSession Sample.Date_getTime "trip.json" "Journey" Sample.st = (st', true) /\
     files st' !! "Journey.json" = Some (Json r) /\ Session.id r = "Journey" /\
     currentSessionId st' = Some "trip" /\
     (loadSession Sample.Date_getTime "trip" st').2 = None).
Proof.
  split; [reflexivity|]. split.
  - eexists. split; vm_compute; reflexivity.
  - eexists. eexists. repeat split; vm_compute; reflexivity.
Qed.

(** ** The listing on a directory of any content *)

Section RawListingFacts.

Variable Date_getTime : string -> option Z.
Variable Date_of_value : option JsValue -> option Z.


Lemma readRawFile_Some dir file v :
  readRawFile dir file = Some v <-> dir !! file = Some (RawJson v).
Proof.
  unfold readRawFile. destruct (dir !! file) as [[raw|v']|]; split; congruence.
Qed.

(** The values read, before they are sorted. *)
Lemma elem_of_raw_sessions dir v :
  v ∈ omap (fun file => if endsWith file json_suffix
                        then readRawFile dir file else None)
           ((map_to_list dir).*1)
  <-> raw_listed dir v.
Proof.
  unfold raw_listed. rewrite list_elem_of_omap. split.
  - intros (file & Hin & Hf).
    destruct (endsWith file json_suffix) eqn:E; [|discriminate].
    exists file. split; [done|]. by apply readRawFile_Some.
  - intros (file & E & Hf). exists file. split.
    + apply list_elem_of_fmap. exists (file, RawJson v). split; [done|].
      by apply elem_of_map_to_list.
    + rewrite E. by apply readRawFile_Some.
Qed.




Lemma existsb_is_null_false (l : list JsValue) :
  (forall v, v ∈ l -> v <> JNull) -> existsb is_null l = false.
Proof.
  induction l as [|v l IH]; intros H; [reflexivity|]. simpl.
  rewrite IH by (intros w Hw; apply H; by right).
  destruct v; try reflexivity. by destruct (H JNull (list_elem_of_here _ _)).
Qed.


(** On a directory whose files that parse hold records of the declared
    type, the listing returns the values of the records that
    [listSessions] returns. *)
Lemma listSessionsRaw_of_records (st : Store) :
  exists l,
    listSessionsRaw Date_getTime Date_of_value (raw_file <$> files st) = Returns l /\
    forall v, v ∈ l <-> exists s, s ∈ listSessions Date_getTime st /\ v = session_json s.
Proof.
  assert (Hl : forall v, raw_listed (raw_file <$> files st) v <->
                         exists s, listed (files st) s /\ v = session_json s).
  { intros v. unfold raw_listed, listed. split.
    - intros (file & E & Hf). rewrite lookup_fmap in Hf.
      destruct (files st !! file) as [[raw|s]|] eqn:Hs; simpl in Hf; try discriminate.
      injection Hf as <-. exists s. split; [by exists file|done].
    - intros (s & (file & E & Hf) & ->). exists file. split; [done|].
      by rewrite lookup_fmap, Hf. }
  unfold listSessionsRaw, sortRaw.
  rewrite existsb_is_null_false.
  - rewrite andb_false_r. eexists. split; [reflexivity|].
    intros v. rewrite elem_of_js_sort, elem_of_raw_sessions, Hl.
    split; intros (s & Hs & ->); exists s; (split; [|done]);
      by apply (elem_of_listSessions Date_getTime).
  - intros v Hv. apply elem_of_raw_sessions, Hl in Hv as (s & _ & ->). discriminate.
Qed.

End RawListingFacts.




(** ** The command router and the chat turn driver *)

Section RouterFacts.

Variable Date_toISOString : nat -> string.
Variable Date_getTime : string -> option Z.
Variable agent_generate : list Message -> option GenerateResult.
Variable marked_parse : string -> option string.

(** A chat turn always records the user turn and always calls the
    generation collaborator with the extended transcript. *)
Lemma chatTurn_user_turn input c :
  exists later,
    messages (chatTurn agent_generate marked_parse input c)
    = messages c ++ Build_Message user input :: later /\
    CallGenerate (messages c ++ [Build_Message user input])
      ∈ trace (chatTurn agent_generate marked_parse input c).
Proof.
  unfold chatTurn.
  destruct (agent_generate _) as [result|]; simpl.
  2:{ exists []. split; [done|]. rewrite !elem_of_app. left. right.
      apply list_elem_of_further, list_elem_of_here. }
  destruct (responseText_of result) as [responseText|]; simpl.
  2:{ exists []. split; [done|]. rewrite !elem_of_app. left. left. right.
      apply list_elem_of_further, list_elem_of_here. }
  destruct (marked_parse _) as [rendered|]; simpl.
  - eexists [_]. split; [by rewrite <- app_assoc|].
    rewrite !elem_of_app. left. left. left. right.
    apply list_elem_of_further, list_elem_of_here.
  - exists []. split; [done|]. rewrite !elem_of_app. left. left. left. right.
    apply list_elem_of_further, list_elem_of_here.
Qed.

Lemma logInteraction_active messages st cur s :
  currentSessionId st = Some cur -> cur <> EmptyString ->
  files st !! (cur +:+ json_suffix) = Some (Json s) ->
  logInteraction messages st
  = mkStore (<[cur +:+ json_suffix := Json (Session.with_messages s messages)]> (files st))
            (Some cur) (ticks st).
Proof.
  intros Hc Hne Hs. unfold logInteraction, truthy_id. rewrite Hc.
  assert (is_empty cur = false) as -> by (by destruct cur).
  cbv zeta. apply readSessionFile_Some in Hs. rewrite Hs. by rewrite <- Hc.
Qed.

End RouterFacts.

(** C10.  The inputs [/load] and [/rename] typed without a space and an
    argument (also when followed by white space only, which [trim] removes)
    pass every command test of the line handler and are handled as chat
    messages: the text is appended to the transcript as a user turn and the
    transcript is sent to the generation collaborator. *)
Theorem bare_load_and_rename_are_chat_messages
    (Date_toISOString : nat -> string) (Date_getTime : string -> option Z)
    (agent_generate : list Message -> option GenerateResult)
    (marked_parse : string -> option string) (c : Chat) :
  handled_as_chat_message Date_toISOString Date_getTime agent_generate marked_parse
    "/load" c /\
  handled_as_chat_message Date_toISOString Date_getTime agent_generate marked_parse
    "/rename" c /\
  handled_as_chat_message Date_toISOString Date_getTime agent_generate marked_parse
    "/load " c /\
  handled_as_chat_message Date_toISOString Date_getTime agent_generate marked_parse
    "/rename  " c.
Proof.
  repeat split; unfold handled_as_chat_message;
    match goal with
    | |- context [trim ?l] =>
        destruct (chatTurn_user_turn agent_generate marked_parse (trim l) c)
          as (later & Hm & Ht);
        exists (chatTurn agent_generate marked_parse (trim l) c), later
    end; (split; [reflexivity|split; [exact Hm|exact Ht]]).
Qed.

(** C8, as the code has it.  Let the line, of ASCII characters, be [/load]
    followed by an argument, and let [sessionId], the trimmed argument, have
    no path separator in it.  If [sessionId] names no stored session -- no
    record is stored under its file name, and no listed record has it as its
    id or as its [filename] field -- then the handler reports that the
    session was not found, prompts again, and changes neither the
    transcript nor the store, whose active session id stays as it was.  The
    directory is one whose files that parse hold session records. *)
Theorem load_unknown_session_changes_nothing
    (Date_toISOString : nat -> string) (Date_getTime : string -> option Z)
    (agent_generate : list Message -> option GenerateResult)
    (marked_parse : string -> option string)
    (c : Chat) (line arg : string) :
  all_chars is_ascii line = true ->
  trim line = "/load " +:+ arg ->
  let sessionId := trim arg in
  is_plain_name sessionId = true ->
  (forall s, files (store c) !! json_name sessionId <> Some (Json s)) ->
  (forall s, listed (files (store c)) s ->
             Session.id s <> sessionId /\ Session.filename s <> sessionId /\
             Session.filename s <> json_name sessionId) ->
  exists c',
    handleLine Date_toISOString Date_getTime agent_generate marked_parse line c
    = Continue c' /\
    messages c' = messages c /\
    store c' = store c /\
    currentSessionId (store c') = currentSessionId (store c) /\
    trace c' = trace c ++ [OutSessionNotFound sessionId; OutPrompt].
Proof.
  intros _ Hline sessionId _ Hkey Hlisted.
  unfold handleLine. rewrite Hline. simpl.
  fold sessionId.
  rewrite loadSession_None.
  - eexists. split; [reflexivity|]. simpl. done.
  - destruct (readSessionFile _ _) as [s|] eqn:R; [|done].
    apply readSessionFile_Some in R. by destruct (Hkey s).
  - intros s Hs. destruct (Hlisted s Hs) as (H1 & H2 & H3).
    unfold load_matches.
    destruct (String.eqb_spec (Session.id s) sessionId); [done|].
    destruct (String.eqb_spec (Session.filename s) sessionId); [done|].
    destruct (String.eqb_spec (Session.filename s) (json_name sessionId)); done.
Qed.

Lemma load_unknown_session_changes_nothing_witness :
  handleLine Sample.Date_toISOString Sample.Date_getTime
             Sample.agent_generate Sample.marked_parse
             "/load nonexistent-id" (mkChat Sample.st Sample.hello [])
  = Continue (mkChat Sample.st Sample.hello
                     [OutSessionNotFound "nonexistent-id"; OutPrompt]).
Proof.
  destruct (load_unknown_session_changes_nothing
              Sample.Date_toISOString Sample.Date_getTime
              Sample.agent_generate Sample.marked_parse
              (mkChat Sample.st Sample.hello []) "/load nonexistent-id" "nonexistent-id")
    as (c' & -> & Hm & Hs & _ & Ht).
  - reflexivity.
  - reflexivity.
  - reflexivity.
  - intros s. vm_compute. discriminate.
  - intros s (file & _ & H). unfold Sample.st, Sample.dir in H. simpl in H.
    repeat (rewrite lookup_insert in H; case_decide;
            [simplify_eq; vm_compute; repeat split; discriminate|]).
    by rewrite lookup_empty in H.
  - destruct c'. simpl in *. by subst.
Defined.

(** C8 as stated fails on a record whose [filename] field is not the name
    of its file.  The identifier [zzz] is no storage key ([zzz.json] is not
    in the directory) and no id of a listed record, yet [/load zzz] finds
    the record of [a.json] by its [filename] field, loads its transcript and
    makes it the active session. *)
Lemma load_finds_record_by_filename_field :
  let c := mkChat SampleMore.misfiled_st [] [] in
  files (store c) !! json_name "zzz" = None /\
  (forall s, listed (files (store c)) s -> Session.id s <> "zzz") /\
  exists c',
    handleLine Sample.Date_toISOString Sample.Date_getTime
               Sample.agent_generate Sample.marked_parse "/load zzz" c
    = Continue c' /\
    messages c' = Sample.hello /\ messages c' <> messages c /\
    currentSessionId (store c') = Some "a" /\
    currentSessionId (store c) = None /\
    trace c' = [OutLoaded "a" Sample.hello; OutPrompt].
Proof.
  split; [reflexivity|]. split.
  - intros s (file & _ & H). unfold SampleMore.misfiled_st in H. simpl in H.
    apply lookup_singleton_Some in H as [_ H]. injection H as <-. discriminate.
  - eexists. split; [vm_compute; reflexivity|]. repeat split. discriminate.
Qed.

(** ** Thinking blocks *)




Example assistantContent_strips_thinking :
  assistantContent "<think>plan</think> Hello!" = "Hello!" /\
  assistantContent "A<think>x</think>B<think>y</think>C" = "ABC" /\
  assistantContent "<think>only thoughts</think>" = "<think>only thoughts</think>" /\
  assistantContent "<think>never closed" = "<think>never closed".
Proof. repeat split; reflexivity. Qed.

(** ** The chat turn with the agent's tools *)

Section ToolsFacts.

Variable Date_toISOString : nat -> string.
Variable Date_getTime : string -> option Z.
Variable marked_parse : string -> option string.

(** With an agent whose tools are never called, the chat turn is
    [chatTurn]. *)
Lemma chatTurnTools_no_tools agent_generate input c :
  chatTurnTools (no_tools agent_generate) marked_parse input c
  = chatTurn agent_generate marked_parse input c.
Proof.
  unfold chatTurnTools, chatTurn, no_tools. cbn [fst snd].
  assert (Hst : forall st, mkStore (files st) (currentSessionId st) (ticks st) = st)
    by (by intros []).
  by rewrite Hst.
Qed.

(** The branches of [handleLine] for the commands and for the empty line
    do not depend on the agent. *)
Lemma handleLine_command agent agent' line c :
  is_command (trim line) || is_empty (trim line) = true ->
  handleLine Date_toISOString Date_getTime agent marked_parse line c
  = handleLine Date_toISOString Date_getTime agent' marked_parse line c.
Proof.
  unfold is_command, handleLine, member_of. cbn [existsb].
  destruct (String.eqb (trim line) "exit"); [done|].
  destruct (String.eqb (trim line) "quit"); [done|].
  destruct (String.eqb (trim line) "/exit"); [done|].
  destruct (String.eqb (trim line) "/quit"); [done|].
  destruct (String.eqb (trim line) "/config"); [done|].
  destruct (String.eqb (trim line) "/help"); [done|].
  destruct (String.eqb (trim line) "/clear"); [done|].
  destruct (String.eqb (trim line) "/history"); [done|].
  destruct (startsWith (trim line) "/load "); [done|].
  destruct (startsWith (trim line) "/rename "); [done|].
  cbn [orb]. by intros ->.
Qed.

Lemma handleLine_chat agent line c :
  is_command (trim line) || is_empty (trim line) = false ->
  handleLine Date_toISOString Date_getTime agent marked_parse line c
  = Continue (chatTurn agent marked_parse (trim line) c).
Proof.
  unfold is_command, handleLine, member_of. cbn [existsb].
  destruct (String.eqb (trim line) "exit"); [done|].
  destruct (String.eqb (trim line) "quit"); [done|].
  destruct (String.eqb (trim line) "/exit"); [done|].
  destruct (String.eqb (trim line) "/quit"); [done|].
  destruct (String.eqb (trim line) "/config"); [done|].
  destruct (String.eqb (trim line) "/help"); [done|].
  destruct (String.eqb (trim line) "/clear"); [done|].
  destruct (String.eqb (trim line) "/history"); [done|].
  destruct (startsWith (trim line) "/load "); [done|].
  destruct (startsWith (trim line) "/rename "); [done|].
  cbn [orb]. by intros ->.
Qed.

(** With an agent whose tools are never called, the line handler is
    [handleLine]. *)
Lemma handleLineTools_no_tools agent_generate line c :
  handleLineTools Date_toISOString Date_getTime (no_tools agent_generate)
                  marked_parse line c
  = handleLine Date_toISOString Date_getTime agent_generate marked_parse line c.
Proof.
  unfold handleLineTools.
  destruct (is_command (trim line) || is_empty (trim line)) eqn:E.
  - by apply handleLine_command.
  - rewrite chatTurnTools_no_tools. symmetry. by apply handleLine_chat.
Qed.

End ToolsFacts.




(** ** The application loop *)

Section LoopFacts.

Variable Date_toISOString : nat -> string.
Variable Date_getTime : string -> option Z.
Variable new_Agent : nat -> list Message -> option GenerateResult.
Variable marked_parse : string -> option string.
Variable checkConnectionAndPrompt : nat -> bool.

Lemma chatLoop_rest agent lines c a rest c' :
  chatLoop Date_toISOString Date_getTime agent marked_parse lines c = (Some a, rest, c') ->
  (length rest < length lines)%nat.
Proof.
  revert c. induction lines as [|l lines IH]; intros c H; simpl in H; [discriminate|].
  destruct (handleLine _ _ _ _ l c) as [c1|a1 c1].
  - apply IH in H. simpl. lia.
  - injection H as _ <- _. simpl. lia.
Qed.

(** The loop stops within as many iterations as there are lines, plus one. *)
Lemma mainLoop_fuel_enough fuel iteration lines st tr :
  (length lines < fuel)%nat ->
  (mainLoop Date_toISOString Date_getTime new_Agent marked_parse
            checkConnectionAndPrompt fuel iteration lines st tr).1.1 <> OutOfFuel.
Proof.
  revert iteration lines st tr.
  induction fuel as [|fuel IH]; intros iteration lines st tr Hlen; [lia|].
  cbn [mainLoop]. destruct (checkConnectionAndPrompt iteration); [|done].
  unfold runChatSession.
  destruct (chatLoop _ _ _ _ lines _) as [[[[|]|] rest] c'] eqn:E; try done.
  apply chatLoop_rest in E. apply IH. lia.
Qed.

(** After [/config] the loop goes round with the session manager as it
    is: no session is created before the router is entered again. *)
Lemma mainLoop_configure fuel iteration rest st tr :
  checkConnectionAndPrompt iteration = true ->
  mainLoop Date_toISOString Date_getTime new_Agent marked_parse
           checkConnectionAndPrompt (S fuel) iteration ("/config" :: rest) st tr
  = mainLoop Date_toISOString Date_getTime new_Agent marked_parse
             checkConnectionAndPrompt fuel (S iteration) rest st
             (tr ++ [OutAgentReady] ++ [OutPrompt]).
Proof.
  intros H. cbn [mainLoop]. rewrite H. unfold runChatSession.
  cbn [chatLoop]. change (handleLine _ _ _ _ "/config" ?c) with (Resolved configure c).
  cbn. by rewrite <- app_assoc.
Qed.

End LoopFacts.

(** C1, evaluated.  The user chats ([hello]), reconfigures ([/config]),
    chats again ([hi]) and leaves.  [createSession] ran once, before the
    loop: the clock was read twice and the directory holds one record.  The
    second chat was logged into that record, whose transcript is now the
    second chat's; the turns of the first chat are gone from it. *)
Theorem main_reconfigure_reuses_session :
  let '(outcome, st, tr) := SampleRun.run in
  outcome = ProcessExit /\
  ticks st = 2%nat /\
  readdir (files st) = ["session-2026-01-01T10-00-00-000Z.json"] /\
  currentSessionId st = Some "session-2026-01-01T10-00-00-000Z" /\
  files st !! "session-2026-01-01T10-00-00-000Z.json"
  = Some (Json (Session.mk "session-2026-01-01T10-00-00-000Z"
                           "session-2026-01-01T10-00-00-000Z.json"
                           "2026-01-01T10:00:01.000Z"
                           [Build_Message user "hi"; Build_Message assistant "Hello!"])) /\
  CallGenerate [Build_Message user "hello"] ∈ tr /\
  CallGenerate [Build_Message user "hi"] ∈ tr.
Proof.
  vm_compute. repeat split; try reflexivity.
  - do 3 apply list_elem_of_further. apply list_elem_of_here.
  - do 10 apply list_elem_of_further. apply list_elem_of_here.
Qed.

(** ** The suggestion engine *)

Ltac ghost_fields :=
  cbn [line cursor suggestion rootSuggestionTimer showRootSuggestion
       timeouts nextHandle ghostText].

Lemma bare_prefix_inv (l : string) :
  String.length l = 1%nat -> startsWith l "/" = true -> l = "/".
Proof.
  destruct l as [|a [|b l]]; simpl; try discriminate.
  intros _ H. apply andb_true_iff in H as [H _].
  apply Ascii.eqb_eq in H. by subst.
Qed.

(** Once a refresh has cleared the timer it tracks, nothing is pending. *)
Lemma refresh_clears_pending (g : Ghost) :
  ghost_inv g ->
  match rootSuggestionTimer g with
  | Some h => clearTimeout h (timeouts g)
  | None => timeouts g
  end = [].
Proof.
  intros [H|(h & Ht & Hr & _)].
  - rewrite H. by destruct (rootSuggestionTimer g).
  - rewrite Hr, Ht. unfold clearTimeout.
    rewrite filter_cons_False by (simpl; auto). apply filter_nil.
Qed.

Lemma refreshLine_inv (g : Ghost) :
  match rootSuggestionTimer g with
  | Some h => clearTimeout h (timeouts g)
  | None => timeouts g
  end = [] ->
  ghost_inv (refreshLine g).
Proof.
  intros Hts. unfold refreshLine. rewrite Hts.
  destruct ((0 <? String.length (line g))%nat && startsWith (line g) "/"
            && (cursor g =? String.length (line g))%nat) eqn:Eactive;
    [|by left].
  destruct (String.length (line g) =? 1)%nat eqn:Elen; [|by left].
  destruct (showRootSuggestion g); [by left|].
  right. eexists. simpl. repeat split. lia.
Qed.

Lemma keystroke_inv (l : string) (c : nat) (g : Ghost) :
  ghost_inv g -> ghost_inv (keystroke l c g).
Proof.
  intros Hg. apply refreshLine_inv. simpl. by apply refresh_clears_pending.
Qed.

Lemma fireTimeout_inv (h : nat) (g : Ghost) :
  ghost_inv g -> h ∈ map handle (timeouts g) -> ghost_inv (fireTimeout h g).
Proof.
  intros [H|(h' & Ht & Hr & _)] Hin.
  - rewrite H in Hin. by apply elem_of_nil in Hin.
  - rewrite Ht in Hin. apply list_elem_of_singleton in Hin. simpl in Hin. subst h'.
    apply refreshLine_inv. simpl. rewrite Hr, Ht.
    unfold clearTimeout.
    rewrite filter_cons_False by (simpl; auto). by rewrite !filter_nil.
Qed.

(** A suggestion is on screen only while no timer is pending, so accepting
    it never meets one. *)
Lemma acceptSuggestion_inv (redraw : bool) (g : Ghost) :
  ghost_inv g -> ghost_inv (acceptSuggestion redraw g).
Proof.
  intros Hg. unfold acceptSuggestion.
  destruct (negb (is_empty (suggestion g)) && _) eqn:E; [|exact Hg].
  assert (Hts : timeouts g = []).
  { destruct Hg as [H|(h & _ & _ & _ & Hs & _)]; [exact H|].
    rewrite Hs in E. discriminate. }
  destruct redraw.
  - match goal with |- ghost_inv (mkGhost _ _ _ _ _ _ _ _) =>
      assert (Hr : ghost_inv (refreshLine
        (mkGhost (line g +:+ suggestion g) (String.length (line g +:+ suggestion g))
                 (suggestion g) (rootSuggestionTimer g) (showRootSuggestion g)
                 (timeouts g) (nextHandle g) (ghostText g)))) end.
    { apply refreshLine_inv. ghost_fields. rewrite Hts.
      by destruct (rootSuggestionTimer g). }
    destruct Hr as [H|(h & H1 & H2 & H3 & H4 & H5)]; [by left|].
    right. exists h. ghost_fields. done.
  - left. ghost_fields. exact Hts.
Qed.

Lemma ghost_reachable_inv (g : Ghost) : ghost_reachable g -> ghost_inv g.
Proof.
  induction 1 as [|g g' _ IH Hstep]; [by left|].
  destruct Hstep as [l c g|h g Hin|redraw g|l c g].
  - by apply keystroke_inv.
  - by apply fireTimeout_inv.
  - by apply acceptSuggestion_inv.
  - exact IH.
Qed.

(** Typing the bare prefix with the latch down: nothing is shown, and one
    timer of 500 ms is left pending. *)
Lemma keystroke_bare_prefix (g : Ghost) :
  ghost_inv g -> showRootSuggestion g = false ->
  let g' := keystroke "/" 1 g in
  ghost_inv g' /\ showRootSuggestion g' = false /\
  suggestion g' = EmptyString /\ ghostText g' = ghostText g /\
  timeouts g' = [Build_Timeout (nextHandle g) 500] /\
  rootSuggestionTimer g' = Some (nextHandle g).
Proof.
  intros Hg Hs. split; [by apply keystroke_inv|].
  unfold keystroke, refreshLine. simpl. rewrite Hs.
  rewrite (refresh_clears_pending g Hg). done.
Qed.

Lemma repeat_keystroke_bare_prefix (n : nat) (g : Ghost) :
  ghost_inv g -> showRootSuggestion g = false ->
  let g' := repeat_keystroke (S n) "/" 1 g in
  ghost_inv g' /\ showRootSuggestion g' = false /\
  suggestion g' = EmptyString /\ ghostText g' = ghostText g /\
  exists h, timeouts g' = [Build_Timeout h 500] /\ rootSuggestionTimer g' = Some h.
Proof.
  revert g. induction n as [|n IH]; intros g Hg Hs.
  - destruct (keystroke_bare_prefix g Hg Hs) as (Hi & H1 & H2 & H3 & H4 & H5).
    simpl. repeat split; try done. eauto.
  - destruct (keystroke_bare_prefix g Hg Hs) as (Hi & H1 & H2 & H3 & H4 & H5).
    destruct (IH _ Hi H1) as (Hi' & H1' & H2' & H3' & H4').
    cbn [repeat_keystroke] in *. repeat split; try done. congruence.
Qed.

Lemma revealed_reachable : ghost_reachable SampleRun.revealed.
Proof.
  unfold SampleRun.revealed.
  eapply reach_step; [eapply reach_step; [apply reach_init|apply step_keystroke]|].
  apply step_timeout. vm_compute. apply list_elem_of_here.
Qed.

(** C6, as the code has it.  A line refresh clears the reveal latch when
    the line is not a command being typed at its end: the line is empty,
    does not start with [/], or the cursor is not at the end.  A refresh on
    a longer line that starts with [/], cursor at the end, leaves the latch
    as it was. *)
Theorem latch_cleared_outside_command_input (g : Ghost) (l : string) (c : nat) :
  (l = EmptyString \/ startsWith l "/" = false \/ c <> String.length l ->
   showRootSuggestion (keystroke l c g) = false) /\
  (startsWith l "/" = true /\ (1 < String.length l)%nat /\ c = String.length l ->
   showRootSuggestion (keystroke l c g) = showRootSuggestion g).
Proof.
  unfold keystroke, refreshLine. ghost_fields. split.
  - intros H.
    assert ((0 <? String.length l)%nat && startsWith l "/" && (c =? String.length l)%nat
            = false) as ->; [|done].
    destruct H as [->|[H|H]]; [done| |].
    + rewrite H. by rewrite andb_false_r.
    + apply Nat.eqb_neq in H. rewrite H. by rewrite andb_false_r.
  - intros (Hs & Hl & ->).
    rewrite Hs, Nat.eqb_refl.
    assert ((0 <? String.length l)%nat = true) as -> by (apply Nat.ltb_lt; lia).
    assert ((String.length l =? 1)%nat = false) as -> by (apply Nat.eqb_neq; lia).
    done.
Qed.

Lemma latch_cleared_outside_command_input_witness :
  showRootSuggestion SampleRun.revealed = true /\
  showRootSuggestion (keystroke "hello" 5 SampleRun.revealed) = false /\
  showRootSuggestion (keystroke "/c" 2 SampleRun.revealed) = true.
Proof.
  split; [reflexivity|]. split.
  - apply (latch_cleared_outside_command_input SampleRun.revealed "hello" 5).
    right. left. reflexivity.
  - apply (latch_cleared_outside_command_input SampleRun.revealed "/c" 2).
    repeat split. simpl. lia.
Defined.

(** C6 as stated fails on the line [/c]: it is not the bare prefix, yet a
    refresh on it leaves the latch up, and when the line is the bare prefix
    again the first command is shown at once, with no timer. *)
Lemma latch_survives_longer_command :
  ghost_reachable SampleRun.revealed /\
  showRootSuggestion SampleRun.revealed = true /\
  "/c" <> "/" /\
  showRootSuggestion (keystroke "/c" 2 SampleRun.revealed) = true /\
  suggestion (keystroke "/" 1 (keystroke "/c" 2 SampleRun.revealed)) = "help" /\
  timeouts (keystroke "/" 1 (keystroke "/c" 2 SampleRun.revealed)) = [].
Proof.
  split; [apply revealed_reachable|repeat split; discriminate].
Qed.

(** C7, as the code has it.  The engine acts on line refreshes only;
    readline also changes the line without one.  In every state the engine
    can reach, at most one timer is pending; a pending timer is the 500 ms
    timer the engine tracks, set by a refresh on the bare prefix, and while
    it is pending the latch is down and no suggestion is held; every line
    refresh cancels it: what is pending after a refresh is at most the one
    timer that refresh has just set.  With the latch down, any number of
    refreshes on the bare prefix show nothing and write nothing, each
    leaving one timer pending.  When the pending timer fires nothing stays
    pending, and if the line is still the bare prefix with the cursor at
    its end, the first command is revealed. *)
Theorem bare_prefix_debounce (g : Ghost) :
  ghost_reachable g ->
  (length (timeouts g) <= 1)%nat /\
  (forall t, t ∈ timeouts g ->
             delay_ms t = 500%nat /\ rootSuggestionTimer g = Some (handle t) /\
             (handle t < nextHandle g)%nat /\
             showRootSuggestion g = false /\ suggestion g = EmptyString) /\
  (forall l c, timeouts (keystroke l c g) = [] \/
               timeouts (keystroke l c g) = [Build_Timeout (nextHandle g) 500]) /\
  (showRootSuggestion g = false ->
   forall n, let g' := repeat_keystroke (S n) "/" 1 g in
             suggestion g' = EmptyString /\ ghostText g' = ghostText g /\
             exists h, timeouts g' = [Build_Timeout h 500] /\
                       rootSuggestionTimer g' = Some h) /\
  (forall h, h ∈ map handle (timeouts g) ->
             let g' := fireTimeout h g in
             timeouts g' = [] /\
             (line g = "/" -> cursor g = 1%nat ->
              suggestion g' = "help" /\ showRootSuggestion g' = true /\
              ghostText g' = ghostText g ++ ["help"])).
Proof.
  intros Hreach. pose proof (ghost_reachable_inv g Hreach) as Hinv.
  split; [|split; [|split; [|split]]].
  - destruct Hinv as [->|(h & -> & _)]; simpl; lia.
  - intros t Ht. destruct Hinv as [H|(h & H & Hr & Hl & Hs & Hlt)];
      rewrite H in Ht; [by apply elem_of_nil in Ht|].
    apply list_elem_of_singleton in Ht. subst t. done.
  - intros l c. unfold keystroke, refreshLine. ghost_fields.
    rewrite (refresh_clears_pending g Hinv).
    repeat (match goal with |- context [if ?b then _ else _] => destruct b end);
      simpl; auto.
  - intros Hs n.
    destruct (repeat_keystroke_bare_prefix n g Hinv Hs) as (_ & _ & H1 & H2 & H3).
    done.
  - intros h Hin.
    destruct Hinv as [H|(h' & Ht & Hr & _)];
      rewrite ?H, ?Ht in Hin; [by apply elem_of_nil in Hin|].
    apply list_elem_of_singleton in Hin. simpl in Hin. subst h'.
    assert (Hts : clearTimeout h (clearTimeout h (timeouts g)) = []).
    { rewrite Ht. unfold clearTimeout.
      rewrite filter_cons_False by (simpl; auto). by rewrite !filter_nil. }
    split.
    + unfold fireTimeout, refreshLine. ghost_fields. rewrite Hr, Hts.
      repeat (match goal with |- context [if ?b then _ else _] => destruct b end);
        reflexivity.
    + intros Hl Hc. unfold fireTimeout, refreshLine. ghost_fields.
      rewrite Hr, Hts, Hl, Hc. done.
Qed.

Lemma bare_prefix_debounce_witness :
  let g := keystroke "/" 1 ghost_init in
  suggestion (repeat_keystroke 3 "/" 1 g) = EmptyString /\
  suggestion (fireTimeout 0 g) = "help".
Proof.
  assert (Hg : ghost_reachable (keystroke "/" 1 ghost_init)).
  { eapply reach_step; [apply reach_init|apply step_keystroke]. }
  destruct (bare_prefix_debounce _ Hg) as (_ & _ & _ & Hquiet & Hfire).
  split.
  - apply (Hquiet eq_refl 2%nat).
  - assert (Hin : 0%nat ∈ map handle (timeouts (keystroke "/" 1 ghost_init))).
    { vm_compute. apply list_elem_of_here. }
    exact (proj1 (proj2 (Hfire 0%nat Hin) eq_refl eq_refl)).
Defined.

(** C7 as stated fails twice.  With the timer of the bare prefix pending, a
    line refresh on [/h] shows the completion [elp] at once.  And after a
    reveal, a refresh on the line [/h] keeps the latch up, so that the next
    refresh on the bare prefix shows [help] with no timer set and no
    delay. *)
Lemma bare_prefix_suggestion_without_delay :
  (let g := keystroke "/" 1 ghost_init in
   timeouts g = [Build_Timeout 0 500] /\
   suggestion (keystroke "/h" 2 g) = "elp") /\
  (let g := keystroke "/h" 2 SampleRun.revealed in
   ghost_reachable g /\
   line (keystroke "/" 1 g) = "/" /\ cursor (keystroke "/" 1 g) = 1%nat /\
   suggestion (keystroke "/" 1 g) = "help" /\
   timeouts (keystroke "/" 1 g) = [] /\
   ghostText (keystroke "/" 1 g) = ghostText g ++ ["help"]).
Proof.
  split; [split; reflexivity|].
  split; [|repeat split].
  eapply reach_step; [apply revealed_reachable|apply step_keystroke].
Qed.


(** * Further properties of the code *)

(** ** The session store, continued *)

Lemma contains_char_app (c : ascii) (a b : string) :
  contains_char c (a +:+ b) = contains_char c a || contains_char c b.
Proof.
  induction a as [|d a IH]; [reflexivity|].
  change (String d a +:+ b) with (String d (a +:+ b)).
  cbn [contains_char]. rewrite IH. apply orb_assoc.
Qed.

Lemma dash_colon_dot_no_dot (s : string) :
  contains_char "." (map_chars dash_colon_dot s) = false.
Proof.
  induction s as [|c s IH]; [reflexivity|]. cbn [map_chars contains_char].
  rewrite IH, orb_false_r. unfold dash_colon_dot.
  destruct (Ascii.eqb_spec c ":"); [reflexivity|].
  destruct (Ascii.eqb_spec c "."); [reflexivity|].
  simpl. by apply Ascii.eqb_neq.
Qed.

(** The id [createSession] makes never ends in [.json], whatever the clock
    returns. *)
Lemma createSession_id_not_json (Date_toISOString : nat -> string) (st : Store) :
  endsWith (createSession Date_toISOString st).2 json_suffix = false.
Proof.
  destruct (endsWith _ _) eqn:E; [|reflexivity].
  apply endsWith_json_has_dot in E. unfold createSession in E. cbn [snd] in E.
  rewrite (contains_char_app "." "session-") in E.
  by rewrite dash_colon_dot_no_dot in E.
Qed.

Lemma json_name_plain (x : string) :
  endsWith x json_suffix = false -> json_name x = x +:+ json_suffix.
Proof. intros H. unfold json_name. by rewrite H. Qed.

Lemma json_name_json (x : string) : json_name (x +:+ json_suffix) = x +:+ json_suffix.
Proof. unfold json_name. by rewrite endsWith_app. Qed.

Lemma loadSession_direct (Date_getTime : string -> option Z) x st s :
  files st !! json_name x = Some (Json s) ->
  loadSession Date_getTime x st
  = (mkStore (files st) (Some (Session.id s)) (ticks st), Some s).
Proof.
  intros H. unfold loadSession. apply readSessionFile_Some in H. by rewrite H.
Qed.

(** X1.  Round trip of [logInteraction] and [loadSession]: with an active
    session whose id is not empty and does not end in [.json] and whose
    record is readable, the transcript logged is the transcript that loading
    the active id returns, message for message; the other fields of the
    record are as before, the other files are untouched, and the session
    loaded is the active one. *)
Theorem logInteraction_then_loadSession
    (Date_getTime : string -> option Z) (st : Store) (cur : string)
    (s : Session.t) (transcript : list Message) :
  currentSessionId st = Some cur ->
  cur <> EmptyString ->
  endsWith cur json_suffix = false ->
  files st !! (cur +:+ json_suffix) = Some (Json s) ->
  exists st',
    loadSession Date_getTime cur (logInteraction transcript st)
    = (st', Some (Session.mk (Session.id s) (Session.filename s)
                             (Session.createdAt s) transcript)) /\
    currentSessionId st' = Some (Session.id s) /\
    (forall file, file <> cur +:+ json_suffix -> files st' !! file = files st !! file).
Proof.
  intros Hcur Hne Hj Hs.
  rewrite (logInteraction_active transcript st cur s Hcur Hne Hs).
  eexists. split; [|split].
  - apply loadSession_direct. simpl. rewrite (json_name_plain _ Hj).
    apply lookup_insert_eq.
  - reflexivity.
  - intros file Hf. simpl. by rewrite lookup_insert_ne.
Qed.

Lemma logInteraction_then_loadSession_witness :
  (loadSession Sample.Date_getTime "trip"
     (logInteraction [Build_Message user "again"] Sample.st)).2
  = Some (Session.mk "trip" "trip.json" "2026-01-01T09:00:00.000Z"
                     [Build_Message user "again"]).
Proof.
  destruct (logInteraction_then_loadSession Sample.Date_getTime Sample.st "trip"
              (Sample.session "trip" "2026-01-01T09:00:00.000Z" Sample.hello)
              [Build_Message user "again"])
    as (st' & -> & _); [reflexivity|discriminate|reflexivity|reflexivity|reflexivity].
Defined.

(** X2.  Whatever the clock returns, the id [createSession] returns can be
    loaded at once: [loadSession] finds the new record, with an empty
    transcript, under that id and leaves the store as [createSession] left
    it; and [createSession] writes no file but the new record's. *)
Theorem createSession_then_loadSession
    (Date_toISOString : nat -> string) (Date_getTime : string -> option Z)
    (st : Store) :
  let st1 := (createSession Date_toISOString st).1 in
  let id := (createSession Date_toISOString st).2 in
  loadSession Date_getTime id st1
  = (st1, Some (Session.mk id (id +:+ json_suffix)
                           (Date_toISOString (S (ticks st))) [])) /\
  (forall file, file <> id +:+ json_suffix -> files st1 !! file = files st !! file).
Proof.
  intros st1 id. split.
  - pose proof (createSession_id_not_json Date_toISOString st) as Hj. fold id in Hj.
    rewrite (loadSession_direct Date_getTime id st1
               (Session.mk id (id +:+ json_suffix) (Date_toISOString (S (ticks st))) [])).
    + reflexivity.
    + rewrite (json_name_plain _ Hj). apply lookup_insert_eq.
  - intros file Hf. subst st1. simpl. by rewrite lookup_insert_ne.
Qed.

Lemma logInteraction_pointer (transcript : list Message) (st : Store) :
  currentSessionId (logInteraction transcript st) = currentSessionId st.
Proof.
  unfold logInteraction. destruct (truthy_id _); [|done].
  by destruct (readSessionFile _ _).
Qed.

Lemma logInteraction_ticks (transcript : list Message) (st : Store) :
  ticks (logInteraction transcript st) = ticks st.
Proof.
  unfold logInteraction. destruct (truthy_id _); [|done].
  by destruct (readSessionFile _ _).
Qed.

Lemma logInteraction_twice (st : Store) (first second : list Message) :
  logInteraction second (logInteraction first st) = logInteraction second st.
Proof.
  unfold logInteraction.
  destruct (truthy_id (currentSessionId st)) as [cur|] eqn:T.
  - destruct (readSessionFile (files st) (cur +:+ json_suffix)) as [s|] eqn:R.
    + simpl. rewrite T. unfold readSessionFile at 1. rewrite lookup_insert_eq.
      simpl. rewrite insert_insert_eq. done.
    + rewrite T, R. done.
  - rewrite T. done.
Qed.

(** X3.  Logging is last write wins: logging a transcript and then another
    leaves the store that logging the second alone leaves.  Logging never
    moves the active-session pointer and never reads the clock. *)
Theorem logInteraction_last_write_wins (st : Store) (first second : list Message) :
  logInteraction second (logInteraction first st) = logInteraction second st /\
  currentSessionId (logInteraction first st) = currentSessionId st /\
  ticks (logInteraction first st) = ticks st.
Proof.
  split; [apply logInteraction_twice|].
  split; [apply logInteraction_pointer|apply logInteraction_ticks].
Qed.

(** X4.  In a well-formed store a session is loaded alike by its id and by
    its file name: both calls return the stored record and make it the
    active session. *)
Theorem loadSession_by_id_or_file_name
    (Date_getTime : string -> option Z) (st : Store) (file : string) (s : Session.t) :
  store_wf (files st) ->
  files st !! file = Some (Json s) ->
  endsWith (Session.id s) json_suffix = false ->
  loadSession Date_getTime (Session.id s) st
  = (mkStore (files st) (Some (Session.id s)) (ticks st), Some s) /\
  loadSession Date_getTime file st
  = (mkStore (files st) (Some (Session.id s)) (ticks st), Some s).
Proof.
  intros Hwf Hs Hj. split.
  - by apply (loadSession_by_id Date_getTime st file s).
  - destruct Hwf as [Hid _]. pose proof (Hid _ _ Hs) as ->.
    apply loadSession_direct. by rewrite json_name_json.
Qed.

Lemma loadSession_by_id_or_file_name_witness :
  loadSession Sample.Date_getTime "notes" Sample.st
  = loadSession Sample.Date_getTime "notes.json" Sample.st.
Proof.
  destruct (loadSession_by_id_or_file_name Sample.Date_getTime Sample.st "notes.json"
              (Sample.session "notes" "2026-01-01T08:00:00.000Z" [])
              sample_dir_wf eq_refl eq_refl) as [H1 H2].
  exact (eq_trans H1 (eq_sym H2)).
Defined.

(** X5.  What [loadSession] answers on an identifier with no path
    separator in it, in a directory whose files that parse hold session
    records.  A record it returns is stored in the directory, either under
    the file name asked for or in a listed file whose record matches the
    identifier by [id] or by [filename]; the active-session pointer then is
    that record's own [id] field, and the files and the clock are
    untouched.  It returns null exactly when the file asked for is absent
    or unreadable and no listed record matches, and then the store is
    unchanged. *)
Theorem loadSession_answer
    (Date_getTime : string -> option Z) (x : string) (st : Store) :
  is_plain_name x = true ->
  match loadSession Date_getTime x st with
  | (st', Some r) =>
      st' = mkStore (files st) (Some (Session.id r)) (ticks st) /\
      (files st !! json_name x = Some (Json r) \/
       (forall s, files st !! json_name x <> Some (Json s)) /\
       listed (files st) r /\
       (Session.id r = x \/ Session.filename r = x \/ Session.filename r = json_name x))
  | (st', None) =>
      st' = st /\
      (forall s, files st !! json_name x <> Some (Json s)) /\
      (forall s, listed (files st) s ->
                 Session.id s <> x /\ Session.filename s <> x /\
                 Session.filename s <> json_name x)
  end.
Proof.
  intros _.
  assert (Hmiss : readSessionFile (files st) (json_name x) = None ->
                  forall s, files st !! json_name x <> Some (Json s)).
  { intros R s Hs. apply readSessionFile_Some in Hs. congruence. }
  assert (Hm : forall s, load_matches x (json_name x) s = true <->
                         (Session.id s = x \/ Session.filename s = x \/
                          Session.filename s = json_name x)).
  { intros s. unfold load_matches. rewrite !orb_true_iff, !String.eqb_eq. tauto. }
  destruct (loadSession Date_getTime x st) as [st' [r|]] eqn:L.
  - apply loadSession_Some in L as [-> [H|(R & Hl & M)]]; split; auto.
    right. split; [by apply Hmiss|]. split; [done|]. by apply Hm.
  - unfold loadSession in L.
    destruct (readSessionFile _ _) as [s0|] eqn:R; [discriminate|].
    destruct (List.find _ _) as [s0|] eqn:F; [discriminate|].
    injection L as <-. split; [done|]. split; [by apply Hmiss|].
    intros s Hs. apply (elem_of_listSessions Date_getTime) in Hs.
    pose proof (proj1 (find_none_iff _ _) F s Hs) as Hf.
    assert (~ (Session.id s = x \/ Session.filename s = x \/
               Session.filename s = json_name x)) as Hn.
    { intros H. apply Hm in H. congruence. }
    tauto.
Qed.

Lemma loadSession_answer_witness :
  loadSession Sample.Date_getTime "nowhere" Sample.st = (Sample.st, None) /\
  forall s, listed (files Sample.st) s -> Session.id s <> "nowhere".
Proof.
  pose proof (loadSession_answer Sample.Date_getTime "nowhere" Sample.st eq_refl) as H.
  destruct (loadSession Sample.Date_getTime "nowhere" Sample.st) as [st' [r|]] eqn:L;
    [vm_compute in L; discriminate|].
  destruct H as (-> & _ & H). split; [reflexivity|].
  intros s Hs. apply (H s Hs).
Defined.

(** X6.  Renaming keeps the conversation.  In a well-formed store, renaming
    a stored session by its id, to a name whose slug makes a file name the
    file system takes, succeeds; the renamed session is the active one and
    stays loadable under the new slug, and the record loaded has the
    transcript and the creation date of the session renamed.  Files other
    than the old and the new one are untouched. *)
Theorem renameSession_keeps_transcript
    (Date_getTime : string -> option Z) (st : Store) (file : string)
    (s : Session.t) (newName : string) :
  store_wf (files st) ->
  files st !! file = Some (Json s) ->
  endsWith (Session.id s) json_suffix = false ->
  let slug := sanitize newName in
  fits_file_name (slug +:+ json_suffix) = true ->
  exists st',
    renameSession Date_getTime (Session.id s) newName st = (st', true) /\
    loadSession Date_getTime slug st'
    = (st', Some (Session.mk slug (slug +:+ json_suffix)
                             (Session.createdAt s) (Session.messages s))) /\
    (forall f, f <> slug +:+ json_suffix -> f <> Session.id s +:+ json_suffix ->
               files st' !! f = files st !! f).
Proof.
  intros Hwf Hs Hj slug _. subst slug.
  destruct (renameSession_by_id Date_getTime st file s newName Hwf Hs Hj)
    as (st' & Hr & Hcur & Ht & Hfiles).
  exists st'. split; [exact Hr|]. split.
  - rewrite (loadSession_direct Date_getTime (sanitize newName) st'
               (Session.mk (sanitize newName) (sanitize newName +:+ json_suffix)
                           (Session.createdAt s) (Session.messages s))).
    + destruct st' as [fs cur tk]. simpl in *. by subst.
    + rewrite (json_name_plain _ (sanitize_not_json newName)).
      rewrite Hfiles. by rewrite decide_True.
  - intros f H1 H2. rewrite Hfiles. by rewrite !decide_False.
Qed.

Lemma renameSession_keeps_transcript_witness :
  exists st',
    renameSession Sample.Date_getTime "trip" "Trip Planning" Sample.st = (st', true) /\
    (loadSession Sample.Date_getTime "Trip-Planning" st').2
    = Some (Session.mk "Trip-Planning" "Trip-Planning.json"
                       "2026-01-01T09:00:00.000Z" Sample.hello).
Proof.
  destruct (renameSession_keeps_transcript Sample.Date_getTime Sample.st "trip.json"
              (Sample.session "trip" "2026-01-01T09:00:00.000Z" Sample.hello)
              "Trip Planning" sample_dir_wf eq_refl eq_refl eq_refl)
    as (st' & Hr & Hl & _).
  exists st'. split; [exact Hr|]. exact (f_equal snd Hl).
Defined.

(** X7.  Renaming onto a name in use replaces what was there.  If another
    record is stored under the file of the new slug, then after the rename
    every record that carries the slug as its id has the transcript of the
    session renamed: the record that was stored under that name is no
    longer in the directory. *)
Theorem renameSession_overwrites_name_in_use
    (Date_getTime : string -> option Z) (st : Store) (file : string)
    (s other : Session.t) (newName : string) :
  store_wf (files st) ->
  files st !! file = Some (Json s) ->
  endsWith (Session.id s) json_suffix = false ->
  files st !! (sanitize newName +:+ json_suffix) = Some (Json other) ->
  Session.messages other <> Session.messages s ->
  let st' := (renameSession Date_getTime (Session.id s) newName st).1 in
  (forall f r, files st' !! f = Some (Json r) ->
               Session.id r = sanitize newName ->
               Session.messages r = Session.messages s) /\
  (forall f, files st' !! f <> Some (Json other)).
Proof.
  intros Hwf Hs Hj Ho Hdiff st'.
  destruct (renameSession_by_id Date_getTime st file s newName Hwf Hs Hj)
    as (st1 & Hr & _ & _ & Hfiles).
  subst st'. rewrite Hr. cbn [fst].
  assert (Hslug : forall f r, files st1 !! f = Some (Json r) ->
                              Session.id r = sanitize newName ->
                              Session.messages r = Session.messages s).
  { intros f r Hf Hid. rewrite Hfiles in Hf.
    destruct (decide (f = _)) as [->|Hn]; [by injection Hf as <-|].
    destruct (decide (f = _)); [discriminate|].
    destruct Hwf as [Hk _]. apply Hk in Hf. congruence. }
  split; [exact Hslug|].
  intros f Hf. apply Hdiff. apply (Hslug f other Hf).
  destruct Hwf as [Hk _]. apply Hk in Ho. by apply append_inj_l in Ho.
Qed.

Lemma renameSession_overwrites_name_in_use_witness :
  let st' := (renameSession Sample.Date_getTime "trip" "notes" Sample.st).1 in
  files st' !! "notes.json"
  <> Some (Json (Sample.session "notes" "2026-01-01T08:00:00.000Z" [])).
Proof.
  apply (proj2 (renameSession_overwrites_name_in_use Sample.Date_getTime Sample.st
           "trip.json"
           (Sample.session "trip" "2026-01-01T09:00:00.000Z" Sample.hello)
           (Sample.session "notes" "2026-01-01T08:00:00.000Z" [])
           "notes" sample_dir_wf eq_refl eq_refl eq_refl ltac:(discriminate))).
Defined.

(** X8.  Renaming what is not there: when the identifier, with no path
    separator in it, names no stored session -- no record under its file
    name, no listed record with it as id or as [filename] field --
    [renameSession] returns false and the store is as before, files and
    active-session pointer alike.  The directory is one whose files that
    parse hold session records. *)
Theorem renameSession_unknown_changes_nothing
    (Date_getTime : string -> option Z) (x newName : string) (st : Store) :
  is_plain_name x = true ->
  (forall s, files st !! json_name x <> Some (Json s)) ->
  (forall s, listed (files st) s ->
             Session.id s <> x /\ Session.filename s <> x /\
             Session.filename s <> json_name x) ->
  renameSession Date_getTime x newName st = (st, false).
Proof.
  intros _ Hkey Hl.
  assert (L : loadSession Date_getTime x st = (st, None)).
  { apply loadSession_None.
    - destruct (readSessionFile _ _) as [s|] eqn:R; [|done].
      apply readSessionFile_Some in R. by destruct (Hkey s).
    - intros s Hs. destruct (Hl s Hs) as (H1 & H2 & H3). unfold load_matches.
      destruct (String.eqb_spec (Session.id s) x); [done|].
      destruct (String.eqb_spec (Session.filename s) x); [done|].
      destruct (String.eqb_spec (Session.filename s) (json_name x)); done. }
  rewrite renameSession_fail; by rewrite L.
Qed.

Lemma renameSession_unknown_changes_nothing_witness :
  renameSession Sample.Date_getTime "nowhere" "Anything" Sample.st = (Sample.st, false).
Proof.
  apply renameSession_unknown_changes_nothing.
  - reflexivity.
  - intros s. vm_compute. discriminate.
  - intros s (file & _ & H). unfold Sample.st, Sample.dir in H. simpl in H.
    repeat (rewrite lookup_insert in H; case_decide;
            [simplify_eq; vm_compute; repeat split; discriminate|]).
    by rewrite lookup_empty in H.
Defined.

(** *** Slugs are safe file names *)

Lemma all_chars_filter (p : ascii -> bool) (s : string) :
  all_chars p (filter_chars p s) = true.
Proof.
  induction s as [|c s IH]; [reflexivity|]. simpl.
  destruct (p c) eqn:E; [|exact IH]. simpl. by rewrite E, IH.
Qed.

Lemma all_chars_trimStart (p : ascii -> bool) (s : string) :
  all_chars p s = true -> all_chars p (trimStart s) = true.
Proof.
  induction s as [|c s IH]; [done|]. intros H. simpl.
  destruct (is_space c); [|exact H].
  simpl in H. apply andb_true_iff in H as [_ H]. by apply IH.
Qed.

Lemma all_chars_trimEnd (p : ascii -> bool) (s : string) :
  all_chars p s = true -> all_chars p (trimEnd s) = true.
Proof.
  induction s as [|c s IH]; [done|]. intros H.
  simpl in H. apply andb_true_iff in H as [Hc H]. specialize (IH H).
  simpl. destruct (trimEnd s) as [|d t].
  - destruct (is_space c); [done|]. simpl. by rewrite Hc.
  - change (all_chars p (String c (String d t)))
      with (p c && all_chars p (String d t)).
    by rewrite Hc, IH.
Qed.

Lemma all_chars_replace_space_runs (in_run : bool) (s : string) :
  all_chars is_name_char s = true ->
  all_chars is_slug_char (replace_space_runs "-" in_run s) = true.
Proof.
  revert in_run. induction s as [|c s IH]; intros in_run H; [done|].
  simpl in H. apply andb_true_iff in H as [Hc H]. simpl.
  destruct (is_space c) eqn:E; [destruct in_run|]; simpl; rewrite ?IH; try done.
  unfold is_slug_char. by rewrite Hc, E.
Qed.

Lemma slug_fixed_by_filter (s : string) :
  all_chars is_slug_char s = true -> filter_chars is_name_char s = s.
Proof.
  induction s as [|c s IH]; [done|]. intros H.
  simpl in H. apply andb_true_iff in H as [Hc H].
  unfold is_slug_char in Hc. apply andb_true_iff in Hc as [Hc _].
  simpl. by rewrite Hc, IH.
Qed.

Lemma slug_fixed_by_trimEnd (s : string) :
  all_chars is_slug_char s = true -> trimEnd s = s.
Proof.
  induction s as [|c s IH]; [done|]. intros H.
  simpl in H. apply andb_true_iff in H as [Hc H].
  unfold is_slug_char in Hc. apply andb_true_iff in Hc as [_ Hc].
  apply negb_true_iff in Hc. simpl. rewrite (IH H), Hc. by destruct s.
Qed.

Lemma slug_fixed_by_trimStart (s : string) :
  all_chars is_slug_char s = true -> trimStart s = s.
Proof.
  destruct s as [|c s]; [done|]. intros H.
  simpl in H. apply andb_true_iff in H as [Hc _].
  unfold is_slug_char in Hc. apply andb_true_iff in Hc as [_ Hc].
  apply negb_true_iff in Hc. simpl. by rewrite Hc.
Qed.

Lemma slug_fixed_by_replace (s : string) :
  all_chars is_slug_char s = true -> replace_space_runs "-" false s = s.
Proof.
  induction s as [|c s IH]; [done|]. intros H.
  simpl in H. apply andb_true_iff in H as [Hc H].
  unfold is_slug_char in Hc. apply andb_true_iff in Hc as [_ Hc].
  apply negb_true_iff in Hc. simpl. by rewrite Hc, IH.
Qed.

(** X9.  What [sanitize] returns is made of letters, digits, [-] and [_]
    only, whatever the name given: no white space, no dot, no path
    separator.  Sanitizing is idempotent: a slug is its own slug. *)
Theorem sanitize_slug (newName : string) :
  all_chars is_slug_char (sanitize newName) = true /\
  sanitize (sanitize newName) = sanitize newName.
Proof.
  assert (H : all_chars is_slug_char (sanitize newName) = true).
  { unfold sanitize, trim.
    apply all_chars_replace_space_runs, all_chars_trimEnd, all_chars_trimStart,
          all_chars_filter. }
  split; [exact H|].
  unfold sanitize at 1, trim.
  rewrite (slug_fixed_by_filter _ H), (slug_fixed_by_trimStart _ H),
          (slug_fixed_by_trimEnd _ H).
  by apply slug_fixed_by_replace.
Qed.

(** X10.  A new name without a letter, digit, [-] or [_] leaves a session
    nothing is saved into.  In a well-formed store, renaming a stored
    session by its id to a name whose slug is empty succeeds and makes the
    empty string the active id; from then on [logInteraction] writes
    nothing, and [/rename], on a line of ASCII characters, answers that no
    session is active. *)
Theorem renameSession_empty_slug
    (Date_toISOString : nat -> string) (Date_getTime : string -> option Z)
    (agent_generate : list Message -> option GenerateResult)
    (marked_parse : string -> option string)
    (st : Store) (file : string) (s : Session.t) (newName : string) :
  store_wf (files st) ->
  files st !! file = Some (Json s) ->
  endsWith (Session.id s) json_suffix = false ->
  sanitize newName = EmptyString ->
  exists st',
    renameSession Date_getTime (Session.id s) newName st = (st', true) /\
    currentSessionId st' = Some EmptyString /\
    (forall transcript, logInteraction transcript st' = st') /\
    (forall line arg transcript tr,
        all_chars is_ascii line = true ->
        trim line = "/rename " +:+ arg -> trim arg <> EmptyString ->
        handleLine Date_toISOString Date_getTime agent_generate marked_parse
                   line (mkChat st' transcript tr)
        = Continue (mkChat st' transcript (tr ++ [OutNoActiveSession; OutPrompt]))).
Proof.
  intros Hwf Hs Hj Hslug.
  destruct (renameSession_by_id Date_getTime st file s newName Hwf Hs Hj)
    as (st' & Hr & Hcur & _ & _).
  rewrite Hslug in Hcur.
  assert (Hlog : forall transcript, logInteraction transcript st' = st').
  { intros transcript. unfold logInteraction. by rewrite Hcur. }
  exists st'. split; [exact Hr|]. split; [exact Hcur|]. split; [exact Hlog|].
  intros line arg transcript tr _ Hline Harg. unfold handleLine.
  rewrite Hline. simpl.
  assert (is_empty (trim arg) = false) as -> by (by destruct (trim arg)).
  rewrite Hcur. reflexivity.
Qed.

Lemma renameSession_empty_slug_witness :
  exists st',
    renameSession Sample.Date_getTime "trip" "!!!" Sample.st = (st', true) /\
    currentSessionId st' = Some EmptyString /\
    logInteraction Sample.hello st' = st'.
Proof.
  destruct (renameSession_empty_slug Sample.Date_toISOString Sample.Date_getTime
              Sample.agent_generate Sample.marked_parse Sample.st "trip.json"
              (Sample.session "trip" "2026-01-01T09:00:00.000Z" Sample.hello)
              "!!!" sample_dir_wf eq_refl eq_refl eq_refl)
    as (st' & Hr & Hc & Hl & _).
  exists st'. split; [exact Hr|]. split; [exact Hc|]. apply Hl.
Defined.

(** X11.  Two session managers on one directory.  The agent's tools hold a
    session manager of their own.  When it renames the session that the
    chat loop's manager has active, to a slug other than the old id that
    makes a file name the file system takes, the chat loop's pointer still
    holds the old id, whose file is gone, and its [logInteraction] writes
    nothing from then on. *)
Theorem rename_by_other_manager_stops_logging
    (Date_getTime : string -> option Z) (tools : Store) (file : string)
    (s : Session.t) (newName : string) (chatTicks : nat) :
  store_wf (files tools) ->
  files tools !! file = Some (Json s) ->
  endsWith (Session.id s) json_suffix = false ->
  sanitize newName <> Session.id s ->
  fits_file_name (sanitize newName +:+ json_suffix) = true ->
  let dir := files (renameSession Date_getTime (Session.id s) newName tools).1 in
  let chat := mkStore dir (Some (Session.id s)) chatTicks in
  (renameSession Date_getTime (Session.id s) newName tools).2 = true /\
  forall transcript, logInteraction transcript chat = chat.
Proof.
  intros Hwf Hs Hj Hne _ dir chat.
  destruct (renameSession_by_id Date_getTime tools file s newName Hwf Hs Hj)
    as (st' & Hr & _ & _ & Hfiles).
  subst chat dir. rewrite Hr. cbn [fst snd]. split; [reflexivity|].
  intros transcript. unfold logInteraction. cbn [currentSessionId files].
  destruct (truthy_id (Some (Session.id s))) as [cur|] eqn:T; [|done].
  assert (cur = Session.id s) as ->.
  { unfold truthy_id in T. destruct (is_empty _); congruence. }
  unfold readSessionFile. rewrite Hfiles.
  rewrite decide_False.
  - by rewrite decide_True.
  - intros H. apply append_inj_l in H. congruence.
Qed.

Lemma rename_by_other_manager_stops_logging_witness :
  let dir := files (renameSession Sample.Date_getTime "trip" "Journey"
                      (mkStore Sample.dir None 0)).1 in
  logInteraction Sample.hello (mkStore dir (Some "trip") 7)
  = mkStore dir (Some "trip") 7.
Proof.
  apply (rename_by_other_manager_stops_logging Sample.Date_getTime
           (mkStore Sample.dir None 0) "trip.json"
           (Sample.session "trip" "2026-01-01T09:00:00.000Z" Sample.hello)
           "Journey" 7 sample_dir_wf eq_refl eq_refl); [discriminate|reflexivity].
Defined.

(** ** The command router and the chat turn driver, continued *)

Section RouterMore.

Variable Date_toISOString : nat -> string.
Variable Date_getTime : string -> option Z.
Variable agent_generate : list Message -> option GenerateResult.
Variable marked_parse : string -> option string.

Lemma logInteraction_frame transcript st file :
  (forall cur, currentSessionId st = Some cur -> file <> cur +:+ json_suffix) ->
  files (logInteraction transcript st) !! file = files st !! file.
Proof.
  intros H. unfold logInteraction.
  destruct (currentSessionId st) as [cur|] eqn:Hc; [|done]. simpl.
  destruct (is_empty cur); [done|].
  destruct (readSessionFile _ _); [|done]. simpl.
  rewrite lookup_insert_ne; [done|]. intros <-. by apply (H cur).
Qed.



End RouterMore.



(** X14.  [/clear] starts over.  The handler empties the transcript, and the
    store holds a new session with an empty transcript as the active one;
    no other file changes, so the record that was active before stays as it
    was, unless the clock made the new id collide with it. *)
Theorem clear_command_starts_new_session
    (Date_toISOString : nat -> string) (Date_getTime : string -> option Z)
    (agent_generate : list Message -> option GenerateResult)
    (marked_parse : string -> option string)
    (c : Chat) (line : string) :
  trim line = "/clear" ->
  let id := (createSession Date_toISOString (store c)).2 in
  exists c',
    handleLine Date_toISOString Date_getTime agent_generate marked_parse line c
    = Continue c' /\
    messages c' = [] /\
    currentSessionId (store c') = Some id /\
    (exists s, files (store c') !! (id +:+ json_suffix) = Some (Json s) /\
               Session.id s = id /\ Session.messages s = []) /\
    (forall file, file <> id +:+ json_suffix ->
                  files (store c') !! file = files (store c) !! file).
Proof.
  intros Hline id. unfold handleLine. rewrite Hline. simpl.
  eexists. split; [reflexivity|]. cbn [messages store currentSessionId files].
  split; [done|]. split; [done|]. split.
  - eexists. split; [apply lookup_insert_eq|]. done.
  - intros file Hf. by rewrite lookup_insert_ne.
Qed.

Lemma clear_command_starts_new_session_witness :
  exists c',
    handleLine Sample.Date_toISOString Sample.Date_getTime
               Sample.agent_generate Sample.marked_parse
               "/clear" (mkChat Sample.st Sample.hello []) = Continue c' /\
    messages c' = [] /\
    currentSessionId (store c') = Some "session-2026-01-01T10-00-00-000Z".
Proof.
  destruct (clear_command_starts_new_session
              Sample.Date_toISOString Sample.Date_getTime
              Sample.agent_generate Sample.marked_parse
              (mkChat Sample.st Sample.hello []) "/clear" eq_refl)
    as (c' & H & Hm & Hc & _).
  exists c'. split; [exact H|]. split; [exact Hm|exact Hc].
Defined.

(** X15.  [/history], [/help] and a blank line change nothing: the store
    and the transcript are as before.  [/history] prints the first ten
    sessions of [listSessions], so at most ten, each a stored record. *)
Theorem read_only_commands
    (Date_toISOString : nat -> string) (Date_getTime : string -> option Z)
    (agent_generate : list Message -> option GenerateResult)
    (marked_parse : string -> option string)
    (c : Chat) (line : string) :
  trim line = EmptyString \/ trim line = "/help" \/ trim line = "/history" ->
  exists c',
    handleLine Date_toISOString Date_getTime agent_generate marked_parse line c
    = Continue c' /\
    store c' = store c /\ messages c' = messages c /\
    (trim line = "/history" ->
     exists shown,
       trace c' = trace c ++ [OutHistory shown; OutPrompt] /\
       shown = firstn 10 (listSessions Date_getTime (store c)) /\
       (length shown <= 10)%nat /\
       forall s, s ∈ shown -> listed (files (store c)) s).
Proof.
  intros [H|[H|H]]; unfold handleLine; rewrite H; simpl;
    (eexists; split; [reflexivity|]); (split; [done|]); (split; [done|]);
    try discriminate.
  intros _. eexists. split; [reflexivity|]. split; [reflexivity|].
  split; [rewrite length_take; lia|].
  intros s Hs. apply (elem_of_listSessions Date_getTime).
  by apply (subseteq_take 10).
Qed.

Lemma read_only_commands_witness :
  exists c',
    handleLine Sample.Date_toISOString Sample.Date_getTime
               Sample.agent_generate Sample.marked_parse
               " /history " (mkChat Sample.st Sample.hello []) = Continue c' /\
    store c' = Sample.st /\ messages c' = Sample.hello.
Proof.
  destruct (read_only_commands Sample.Date_toISOString Sample.Date_getTime
              Sample.agent_generate Sample.marked_parse
              (mkChat Sample.st Sample.hello []) " /history ")
    as (c' & H & Hs & Hm & _).
  - right. right. reflexivity.
  - exists c'. split; [exact H|]. split; [exact Hs|exact Hm].
Defined.

Ltac no_call Ht :=
  apply elem_of_app in Ht as [Ht|Ht];
  [exact Ht
  |exfalso; repeat (apply elem_of_cons in Ht as [Ht|Ht]; [discriminate|]);
   by apply elem_of_nil in Ht].

(** X16.  What is sent to the model.  Let the line be of ASCII characters.
    An input that, trimmed, is not empty and passes none of the command
    tests is handled as a chat message: it is appended to the transcript as
    a user turn and the transcript is sent to the generation collaborator.
    An input that is empty or passes a command test is never sent: the
    handler makes no call to the generation collaborator. *)
Theorem chat_messages_and_commands
    (Date_toISOString : nat -> string) (Date_getTime : string -> option Z)
    (agent_generate : list Message -> option GenerateResult)
    (marked_parse : string -> option string)
    (c : Chat) (line : string) :
  all_chars is_ascii line = true ->
  (trim line <> EmptyString -> is_command (trim line) = false ->
   handled_as_chat_message Date_toISOString Date_getTime agent_generate marked_parse
     line c) /\
  (trim line = EmptyString \/ is_command (trim line) = true ->
   forall transcript,
     CallGenerate transcript
       ∈ trace (chat_of (handleLine Date_toISOString Date_getTime agent_generate
                                    marked_parse line c)) ->
     CallGenerate transcript ∈ trace c).
Proof.
  intros _.
  unfold is_command, handleLine, member_of. cbn [existsb].
  set (input := trim line).
  destruct (String.eqb input "exit") eqn:E1; cbn [orb].
  { split; [discriminate|]. intros _ t Ht. exact Ht. }
  destruct (String.eqb input "quit") eqn:E2; cbn [orb].
  { split; [discriminate|]. intros _ t Ht. exact Ht. }
  destruct (String.eqb input "/exit") eqn:E3; cbn [orb].
  { split; [discriminate|]. intros _ t Ht. exact Ht. }
  destruct (String.eqb input "/quit") eqn:E4; cbn [orb].
  { split; [discriminate|]. intros _ t Ht. exact Ht. }
  destruct (String.eqb input "/config") eqn:E5; cbn [orb].
  { split; [discriminate|]. intros _ t Ht. exact Ht. }
  destruct (String.eqb input "/help") eqn:E6; cbn [orb].
  { split; [discriminate|]. intros _ t Ht. cbn [chat_of emit trace] in Ht.
    no_call Ht. }
  destruct (String.eqb input "/clear") eqn:E7; cbn [orb].
  { split; [discriminate|]. intros _ t Ht. cbn [chat_of createSession trace] in Ht.
    no_call Ht. }
  destruct (String.eqb input "/history") eqn:E8; cbn [orb].
  { split; [discriminate|]. intros _ t Ht. cbn [chat_of emit trace] in Ht.
    no_call Ht. }
  destruct (startsWith input "/load ") eqn:E9; cbn [orb].
  { split; [discriminate|]. intros _ t Ht.
    destruct (loadSession _ _ _) as [st1 [s|]]; cbn [chat_of trace] in Ht;
      no_call Ht. }
  destruct (startsWith input "/rename ") eqn:E10; cbn [orb].
  { split; [discriminate|]. intros _ t Ht.
    destruct (is_empty (trim _)).
    - cbn [chat_of emit trace] in Ht.
      no_call Ht.
    - destruct (truthy_id _).
      + destruct (renameSession _ _ _ _) as [st1 [|]]; cbn [chat_of trace] in Ht;
          no_call Ht.
      + cbn [chat_of emit trace] in Ht.
        no_call Ht. }
  split.
  - intros Hne _. unfold handled_as_chat_message. fold input.
    assert (is_empty input = false) as Hi by (by destruct input).
    destruct (chatTurn_user_turn agent_generate marked_parse input c) as (later & Hm & Ht).
    exists (chatTurn agent_generate marked_parse input c), later.
    unfold handleLine, member_of. cbn [existsb]. fold input.
    rewrite E1, E2, E3, E4, E5, E6, E7, E8, E9, E10, Hi. cbn [orb]. done.
  - intros [H|H]; [|discriminate]. rewrite H. cbn [is_empty chat_of emit trace].
    intros t Ht. no_call Ht.
Qed.

Lemma chat_messages_and_commands_witness :
  handled_as_chat_message Sample.Date_toISOString Sample.Date_getTime
    Sample.agent_generate Sample.marked_parse
    "/Help  " (mkChat Sample.st [] []).
Proof.
  apply (chat_messages_and_commands Sample.Date_toISOString Sample.Date_getTime
           Sample.agent_generate Sample.marked_parse (mkChat Sample.st [] []) "/Help  ").
  - reflexivity.
  - discriminate.
  - reflexivity.
Defined.

(** ** The application loop, continued *)

Section LoopMore.

Variable Date_toISOString : nat -> string.
Variable Date_getTime : string -> option Z.
Variable marked_parse : string -> option string.




End LoopMore.



(** ** The suggestion engine, continued *)

Lemma find_command_Some (l cmd : string) :
  find_command l = Some cmd ->
  cmd ∈ COMMANDS /\ cmd = l +:+ substring_from (String.length l) cmd /\ cmd <> l.
Proof.
  unfold find_command. intros H. apply find_some in H as [Hin Hp].
  apply andb_true_iff in Hp as [Hs Hne].
  split; [by apply list_elem_of_In|]. split; [by apply startsWith_inv|].
  apply negb_true_iff in Hne. by apply String.eqb_neq.
Qed.

Lemma refreshLine_suggestion_completes (g : Ghost) :
  suggestion_completes (refreshLine g).
Proof.
  unfold refreshLine, suggestion_completes.
  destruct ((0 <? String.length (line g))%nat && startsWith (line g) "/"
            && (cursor g =? String.length (line g))%nat) eqn:Eactive;
    [|by left].
  apply andb_true_iff in Eactive as [Eactive Hc].
  apply andb_true_iff in Eactive as [_ Hstart]. apply Nat.eqb_eq in Hc.
  destruct (String.length (line g) =? 1)%nat eqn:Elen.
  - apply Nat.eqb_eq in Elen.
    pose proof (bare_prefix_inv _ Elen Hstart) as Hl.
    destruct (showRootSuggestion g); [|by left].
    right. ghost_fields. rewrite Hl in Hc |- *.
    split; [vm_compute; apply list_elem_of_here|]. split; [exact Hc|reflexivity].
  - destruct (find_command (line g)) as [cmd|] eqn:F; [|by left].
    apply find_command_Some in F as (Hin & Heq & _).
    right. ghost_fields. by rewrite <- Heq.
Qed.

(** X18.  Suggestions are sound.  Whatever the state, when a line refresh
    shows a suggestion, the line starts with [/], the cursor is at its end,
    the line is not yet a command of its own and the line followed by the
    suggestion is one of [COMMANDS]; the suggestion is the text written to
    the terminal.  When the refresh shows none, nothing is written. *)
Theorem keystroke_suggestion_sound (g : Ghost) (l : string) (c : nat) :
  let g' := keystroke l c g in
  (suggestion g' <> EmptyString ->
   startsWith l "/" = true /\ c = String.length l /\
   (l +:+ suggestion g') ∈ COMMANDS /\
   ghostText g' = ghostText g ++ [suggestion g']) /\
  (suggestion g' = EmptyString -> ghostText g' = ghostText g).
Proof.
  intros g'. subst g'. unfold keystroke, refreshLine. ghost_fields.
  destruct ((0 <? String.length l)%nat && startsWith l "/"
            && (c =? String.length l)%nat) eqn:Eactive; ghost_fields; [|done].
  apply andb_true_iff in Eactive as [Eactive Hc].
  apply andb_true_iff in Eactive as [_ Hstart]. apply Nat.eqb_eq in Hc.
  destruct (String.length l =? 1)%nat eqn:Elen.
  - apply Nat.eqb_eq in Elen. pose proof (bare_prefix_inv _ Elen Hstart) as ->.
    destruct (showRootSuggestion g); ghost_fields; [|done].
    split; [|discriminate]. intros _. repeat split; try done.
    vm_compute. apply list_elem_of_here.
  - destruct (find_command l) as [cmd|] eqn:F; ghost_fields.
    + apply find_command_Some in F as (Hin & Heq & Hne).
      destruct (substring_from (String.length l) cmd) as [|a sug] eqn:Es.
      * split; [done|]. intros _. cbn [is_empty]. apply app_nil_r.
      * split; [|discriminate]. intros _. cbn [is_empty].
        repeat split; try done. by rewrite <- Heq.
    + split; [done|]. intros _. cbn [is_empty]. apply app_nil_r.
Qed.

Lemma keystroke_suggestion_sound_witness :
  ("/hi" +:+ suggestion (keystroke "/hi" 3 ghost_init)) ∈ COMMANDS.
Proof.
  apply (keystroke_suggestion_sound ghost_init "/hi" 3). discriminate.
Defined.

(** X19.  Accepting a suggestion completes a command.  Right after a line
    refresh that shows a suggestion, the key [right] makes the line the line
    followed by the suggestion, which is one of [COMMANDS], and clears the
    suggestion, whether or not readline redraws. *)
Theorem acceptSuggestion_completes_command (g0 : Ghost) (redraw : bool) :
  let g := refreshLine g0 in
  suggestion g <> EmptyString ->
  let g' := acceptSuggestion redraw g in
  line g' = line g0 +:+ suggestion g /\
  line g' ∈ COMMANDS /\
  suggestion g' = EmptyString.
Proof.
  intros g Hs g'.
  assert (Hline : forall w, line (refreshLine w) = line w).
  { intros w. unfold refreshLine.
    repeat (match goal with |- context [if ?b then _ else _] => destruct b end);
      reflexivity. }
  destruct (refreshLine_suggestion_completes g0) as [H|(Hin & Hc & _)]; [done|].
  fold g in Hin, Hc. rewrite <- (Hline g0). fold g.
  subst g'. unfold acceptSuggestion.
  assert (is_empty (suggestion g) = false) as -> by (by destruct (suggestion g)).
  rewrite Hc, Nat.eqb_refl. cbn [negb andb]. ghost_fields.
  destruct redraw; rewrite ?Hline; ghost_fields; done.
Qed.

Lemma acceptSuggestion_completes_command_witness :
  line (acceptSuggestion false (keystroke "/cl" 3 ghost_init)) = "/clear".
Proof.
  destruct (acceptSuggestion_completes_command
              (silentEdit "/cl" 3 ghost_init) false) as (H & _ & _).
  - discriminate.
  - exact H.
Defined.

(** X20.  The tab completer always offers something.  It returns the line
    unchanged with a list of commands that is never empty: the commands
    that start with the line when there are any, in the order of
    [COMMANDS], and all of [COMMANDS] when there is none. *)
Theorem completer_offers_commands (l : string) :
  (completer l).2 = l /\
  (completer l).1 <> [] /\
  (forall cmd, cmd ∈ (completer l).1 -> cmd ∈ COMMANDS) /\
  ((exists cmd, cmd ∈ COMMANDS /\ startsWith cmd l = true) ->
   (completer l).1 = List.filter (fun cmd => startsWith cmd l) COMMANDS /\
   forall cmd, cmd ∈ (completer l).1 <-> cmd ∈ COMMANDS /\ startsWith cmd l = true) /\
  ((forall cmd, cmd ∈ COMMANDS -> startsWith cmd l = false) ->
   (completer l).1 = COMMANDS).
Proof.
  assert (Hf : forall cmd, cmd ∈ List.filter (fun cmd => startsWith cmd l) COMMANDS <->
                           cmd ∈ COMMANDS /\ startsWith cmd l = true).
  { intros cmd. rewrite !list_elem_of_In.
    exact (filter_In (fun cmd0 => startsWith cmd0 l) cmd COMMANDS). }
  unfold completer. cbn [fst snd].
  destruct (List.filter (fun cmd => startsWith cmd l) COMMANDS) as [|hit hits] eqn:E.
  - split; [done|]. split; [discriminate|]. split; [done|]. split.
    + intros (cmd & Hin & Hs). exfalso.
      assert (cmd ∈ @nil string) as Hn by (by apply Hf).
      by apply elem_of_nil in Hn.
    + done.
  - split; [done|]. split; [discriminate|]. split; [|split].
    + intros cmd Hin. by apply Hf in Hin as [Hin _].
    + intros _. split; [done|]. exact Hf.
    + intros Hnone. exfalso.
      assert (hit ∈ hit :: hits) as Hin by left.
      apply Hf in Hin as [Hin Hs]. rewrite (Hnone hit Hin) in Hs. discriminate.
Qed.

Lemma completer_offers_commands_witness :
  (completer "/c").1 = ["/config"; "/clear"] /\ (completer "hello").1 = COMMANDS.
Proof.
  split; [reflexivity|].
  apply (completer_offers_commands "hello").
  intros cmd Hin. unfold COMMANDS in Hin.
  repeat (apply elem_of_cons in Hin as [->|Hin]; [reflexivity|]).
  by apply elem_of_nil in Hin.
Defined.

(** ** The configuration file *)

(** X21.  The migration of a legacy configuration.  When the file holds a
    configuration with a non-empty [lmStudioUrl] and no (non-empty)
    [baseUrl], [loadConfig] returns it with [baseUrl] set to that URL,
    [provider] set to [lm-studio], the field [lmStudioUrl] removed and every
    other field as it was; loading what it returned changes nothing more. *)
Theorem loadConfig_migrates_legacy (config : gmap string string) (url : string) :
  config !! "lmStudioUrl" = Some url ->
  url <> EmptyString ->
  truthy_text (config !! "baseUrl") = false ->
  let migrated := loadConfig (Some (ConfigJson config)) in
  migrated !! "baseUrl" = Some url /\
  migrated !! "provider" = Some "lm-studio" /\
  migrated !! "lmStudioUrl" = None /\
  (forall field, field <> "baseUrl" -> field <> "provider" -> field <> "lmStudioUrl" ->
                 migrated !! field = config !! field) /\
  loadConfig (Some (ConfigJson migrated)) = migrated.
Proof.
  intros Hurl Hne Hbase migrated. subst migrated. unfold loadConfig, migrate.
  rewrite Hurl, Hbase.
  assert (is_empty url = false) as -> by (by destruct url). cbn [negb andb].
  split; [by rewrite lookup_delete_ne, lookup_insert_ne, lookup_insert_eq|].
  split; [by rewrite lookup_delete_ne, lookup_insert_eq|].
  split; [by rewrite lookup_delete_eq|].
  split.
  - intros field H1 H2 H3.
    by rewrite lookup_delete_ne, lookup_insert_ne, lookup_insert_ne.
  - by rewrite lookup_delete_eq.
Qed.

Lemma loadConfig_migrates_legacy_witness :
  let migrated := loadConfig (Some (ConfigJson legacy_config)) in
  migrated !! "provider" = Some "lm-studio" /\
  migrated !! "baseUrl" = Some "http://legacy-host:1234/v1" /\
  migrated !! "modelId" = Some "legacy-model" /\
  migrated !! "apiKey" = Some "legacy-key" /\
  migrated !! "lmStudioUrl" = None.
Proof.
  destruct (loadConfig_migrates_legacy legacy_config "http://legacy-host:1234/v1")
    as (H1 & H2 & H3 & H4 & _); [reflexivity|discriminate|reflexivity|].
  split; [exact H2|]. split; [exact H1|].
  split; [rewrite H4; [reflexivity|discriminate..]|].
  split; [rewrite H4; [reflexivity|discriminate..]|exact H3].
Defined.

Lemma migrate_idempotent (config : gmap string string) :
  migrate (migrate config) = migrate config.
Proof.
  unfold migrate at 2 3.
  destruct (config !! "lmStudioUrl") as [url|] eqn:Hurl.
  - destruct (negb (truthy_text (config !! "baseUrl")) && negb (is_empty url)) eqn:E.
    + unfold migrate. by rewrite lookup_delete_eq.
    + unfold migrate. by rewrite Hurl, E.
  - unfold migrate. by rewrite Hurl.
Qed.

(** X22.  Saving and loading a configuration.  A configuration that has a
    non-empty [baseUrl], or no [lmStudioUrl], is loaded back as it was
    saved; and whatever [loadConfig] returns is stable: saved and loaded
    again it comes back unchanged. *)
Theorem saveConfig_then_loadConfig (config : gmap string string) (file : option ConfigData) :
  (truthy_text (config !! "baseUrl") = true \/ config !! "lmStudioUrl" = None ->
   loadConfig (saveConfig config) = config) /\
  loadConfig (saveConfig (loadConfig file)) = loadConfig file.
Proof.
  split.
  - intros H. unfold saveConfig, loadConfig, migrate.
    destruct (config !! "lmStudioUrl") as [url|]; [|done].
    destruct H as [H|H]; [by rewrite H|discriminate].
  - unfold saveConfig. destruct file as [[raw|config0]|]; cbn [loadConfig].
    + reflexivity.
    + apply migrate_idempotent.
    + reflexivity.
Qed.

Lemma saveConfig_then_loadConfig_witness :
  loadConfig (saveConfig DEFAULT_CONFIG) = DEFAULT_CONFIG.
Proof.
  apply (proj1 (saveConfig_then_loadConfig DEFAULT_CONFIG None)). left. reflexivity.
Defined.





(** ** The memory log *)

Lemma split_lines_not_nil (s : string) : split_lines s <> [].
Proof.
  induction s as [|c s IH]; [discriminate|]. simpl.
  destruct (Ascii.eqb c "010"); [discriminate|].
  by destruct (split_lines s).
Qed.

Lemma join_cons_cons (sep x y : string) (l : list string) :
  join_with sep (x :: y :: l) = x +:+ sep +:+ join_with sep (y :: l).
Proof. reflexivity. Qed.


Lemma split_lines_no_feed (s line : string) :
  line ∈ split_lines s -> contains_char "010" line = false.
Proof.
  revert line. induction s as [|c s IH]; intros line Hin.
  - apply list_elem_of_singleton in Hin. by subst.
  - cbn [split_lines] in Hin. destruct (Ascii.eqb c "010") eqn:Ec.
    + apply elem_of_cons in Hin as [->|Hin]; [done|]. by apply IH.
    + pose proof (split_lines_not_nil s) as Hn.
      destruct (split_lines s) as [|y l]; [done|].
      apply elem_of_cons in Hin as [->|Hin].
      * cbn [contains_char]. rewrite Ec. apply IH. left.
      * apply IH. by right.
Qed.

Lemma split_lines_single (s : string) :
  contains_char "010" s = false -> split_lines s = [s].
Proof.
  induction s as [|c s IH]; [done|]. intros H.
  cbn [contains_char] in H. apply orb_false_iff in H as [Hc H].
  cbn [split_lines]. rewrite Hc, (IH H). reflexivity.
Qed.

Lemma split_lines_feed (a b : string) :
  contains_char "010" a = false ->
  split_lines (a +:+ nl +:+ b) = a :: split_lines b.
Proof.
  induction a as [|c a IH]; intros H.
  - reflexivity.
  - cbn [contains_char] in H. apply orb_false_iff in H as [Hc H].
    change (String c a +:+ nl +:+ b) with (String c (a +:+ nl +:+ b)).
    cbn [split_lines]. rewrite Hc, (IH H). reflexivity.
Qed.

(** Joining lines that hold no line feed and splitting again gives the
    lines back, if there is a line at all. *)
Lemma split_join_lines (lines : list string) :
  lines <> [] ->
  (forall line, line ∈ lines -> contains_char "010" line = false) ->
  split_lines (join_with nl lines) = lines.
Proof.
  induction lines as [|x lines IH]; [done|]. intros _ H.
  destruct lines as [|y lines].
  - apply split_lines_single, H. left.
  - rewrite join_cons_cons, split_lines_feed by (apply H; left).
    f_equal. apply IH; [done|]. intros line Hl. apply H. by right.
Qed.

Lemma includes_empty (s : string) : includes s EmptyString = true.
Proof. by destruct s. Qed.

Lemma includes_app_r (a b x : string) :
  includes b x = true -> includes (a +:+ b) x = true.
Proof.
  intros H. induction a as [|c a IH]; [exact H|].
  change (String c a +:+ b) with (String c (a +:+ b)).
  cbn [includes]. rewrite IH. apply orb_true_r.
Qed.

Lemma includes_after_spaces (s x : string) :
  startsWith (trimStart s) x = true -> includes s x = true.
Proof.
  induction s as [|c s IH]; intros H.
  - simpl in H. simpl. by rewrite H.
  - cbn [trimStart] in H. cbn [includes]. destruct (is_space c).
    + rewrite (IH H). apply orb_true_r.
    + by rewrite H.
Qed.

Lemma startsWith_trimEnd (s : string) : startsWith s (trimEnd s) = true.
Proof.
  induction s as [|c s IH]; [reflexivity|]. cbn [trimEnd].
  destruct (trimEnd s) as [|d t] eqn:E.
  - destruct (is_space c); [reflexivity|]. simpl. by rewrite Ascii.eqb_refl.
  - change (startsWith (String c s) (String c (String d t)))
      with (Ascii.eqb c c && startsWith s (String d t)).
    by rewrite Ascii.eqb_refl, IH.
Qed.

(** A text includes itself trimmed. *)
Lemma includes_trim (s : string) : includes s (trim s) = true.
Proof. apply includes_after_spaces, startsWith_trimEnd. Qed.

Lemma filter_length_lt {A} (f : A -> bool) (l : list A) :
  (exists x, x ∈ l /\ f x = false) <-> (length (List.filter f l) =? length l)%nat = false.
Proof.
  rewrite Nat.eqb_neq. induction l as [|y l IH]; simpl.
  - split; [|done]. intros (x & Hx & _). by apply elem_of_nil in Hx.
  - pose proof (List.filter_length_le f l) as Hle.
    destruct (f y) eqn:E; simpl.
    + split.
      * intros (x & Hx & Hf). apply elem_of_cons in Hx as [->|Hx]; [congruence|].
        assert (length (List.filter f l) <> length l) by (apply IH; eauto). lia.
      * intros H. destruct (proj2 IH) as (x & Hx & Hf); [lia|].
        exists x. split; [by right|done].
    + split; [lia|]. intros _. exists y. split; [left|done].
Qed.

Lemma split_lines_app_feed (a b : string) :
  split_lines (a +:+ nl +:+ b) = split_lines a ++ split_lines b.
Proof.
  induction a as [|c a IH]; [reflexivity|].
  change (String c a +:+ nl +:+ b) with (String c (a +:+ nl +:+ b)).
  cbn [split_lines]. rewrite IH.
  destruct (Ascii.eqb c "010"); [reflexivity|].
  pose proof (split_lines_not_nil a) as Hn.
  by destruct (split_lines a).
Qed.

Lemma startsWith_refl (s : string) : startsWith s s = true.
Proof. induction s as [|c s IH]; [done|]. simpl. by rewrite Ascii.eqb_refl. Qed.

Lemma includes_refl (s : string) : includes s s = true.
Proof. destruct s; [done|]. cbn [includes]. by rewrite startsWith_refl. Qed.


Lemma deleteMemoryTool_found (memory data : string) :
  (exists line, line ∈ split_lines data /\ includes line (trim memory) = true) ->
  deleteMemoryTool memory (Some data)
  = (Some (join_with nl (kept_lines (trim memory) data)),
     Build_ToolResult true "Memory deleted.").
Proof.
  intros (line & Hin & Hi). unfold deleteMemoryTool.
  assert ((length (List.filter (fun line => negb (includes line (trim memory)))
                               (split_lines data)) =? length (split_lines data))%nat
          = false) as ->; [|done].
  apply filter_length_lt. exists line. split; [done|]. by rewrite Hi.
Qed.

Lemma kept_lines_spec (needle data line : string) :
  line ∈ kept_lines needle data <->
  line ∈ split_lines data /\ includes line needle = false.
Proof.
  unfold kept_lines. rewrite !list_elem_of_In, filter_In, negb_true_iff. done.
Qed.

Lemma kept_lines_rejoined (needle data : string) :
  kept_lines needle data <> [] ->
  split_lines (join_with nl (kept_lines needle data)) = kept_lines needle data.
Proof.
  intros Hn. apply split_join_lines; [done|].
  intros line Hl. apply kept_lines_spec in Hl as [Hl _].
  by apply (split_lines_no_feed data).
Qed.

Lemma kept_lines_clean (needle data line : string) :
  needle <> EmptyString ->
  line ∈ split_lines (join_with nl (kept_lines needle data)) ->
  includes line needle = false.
Proof.
  intros Hne Hin.
  destruct (kept_lines needle data) as [|x l] eqn:E.
  - apply list_elem_of_singleton in Hin. subst line. by destruct needle.
  - rewrite <- E in Hin. rewrite kept_lines_rejoined in Hin by (by rewrite E).
    by apply kept_lines_spec in Hin as [_ Hin].
Qed.



(** X25.  Deleting with a blank text erases the log.  When the text is
    empty or white space only, every line includes its trimmed form, so the
    tool reports success and writes an empty file, whatever the log held.
    When there is no log file the tool fails and creates none. *)
Theorem deleteMemoryTool_blank_erases_all (memory data : string) :
  trim memory = EmptyString ->
  deleteMemoryTool memory (Some data)
  = (Some EmptyString, Build_ToolResult true "Memory deleted.") /\
  deleteMemoryTool memory None
  = (None, Build_ToolResult false "Failed to delete memory.").
Proof.
  intros Hblank. split; [|reflexivity].
  pose proof (split_lines_not_nil data) as Hn.
  rewrite deleteMemoryTool_found.
  - rewrite Hblank.
    assert (kept_lines EmptyString data = []) as ->; [|done].
    destruct (kept_lines EmptyString data) as [|x l] eqn:E; [done|].
    assert (x ∈ kept_lines EmptyString data) as Hx by (rewrite E; left).
    apply kept_lines_spec in Hx as [_ Hx]. by rewrite includes_empty in Hx.
  - destruct (split_lines data) as [|x l]; [done|].
    exists x. split; [left|]. rewrite Hblank. apply includes_empty.
Qed.

Lemma deleteMemoryTool_blank_erases_all_witness :
  deleteMemoryTool "   " (Some ("- likes tea" +:+ nl +:+ "- has a cat"))
  = (Some EmptyString, Build_ToolResult true "Memory deleted.").
Proof.
  apply (deleteMemoryTool_blank_erases_all "   "). reflexivity.
Defined.




(** X27.  A memory saved can be read and deleted.  After [saveMemoryTool],
    what [readMemoryTool] returns includes the memory, whether or not the
    log existed.  If the memory and the time stamp hold no line feed,
    [deleteMemoryTool] on the same text then succeeds, and if the text is
    not blank, no line of the log includes it afterwards. *)
Theorem saved_memory_is_read_and_deleted
    (timestamp memory : string) (file : option string) :
  let saved := (saveMemoryTool timestamp memory file).1 in
  includes (readMemoryTool saved) memory = true /\
  (contains_char "010" timestamp = false ->
   contains_char "010" memory = false ->
   exists data',
     deleteMemoryTool memory saved
     = (Some data', Build_ToolResult true "Memory deleted.") /\
     (trim memory <> EmptyString ->
      forall line, line ∈ split_lines data' -> includes line (trim memory) = false)).
Proof.
  intros saved. subst saved. unfold saveMemoryTool. cbn [fst readMemoryTool].
  set (data := match file with Some d => d | None => EmptyString end).
  unfold memory_entry. split.
  - do 5 apply includes_app_r. apply includes_refl.
  - intros Hts Hm. eexists. split.
    + apply deleteMemoryTool_found.
      exists ("- [" +:+ timestamp +:+ "] " +:+ memory). split.
      * rewrite split_lines_app_feed. apply elem_of_app. right.
        rewrite split_lines_single; [left|].
        rewrite !contains_char_app, Hts, Hm. reflexivity.
      * do 3 apply includes_app_r. apply includes_trim.
    + intros Hne line. by apply kept_lines_clean.
Qed.

Lemma saved_memory_is_read_and_deleted_witness :
  (deleteMemoryTool "likes tea"
     (saveMemoryTool "2026-01-01T10:00:00.000Z" "likes tea" None).1).2
  = Build_ToolResult true "Memory deleted.".
Proof.
  destruct (saved_memory_is_read_and_deleted "2026-01-01T10:00:00.000Z" "likes tea" None)
    as [_ H].
  destruct H as (data' & -> & _); reflexivity.
Defined.

(** ** What the history keeps of a reply *)




